(** * oncekv cache tier: the cache master and the cache node

    A shallow embedding of [cache/master/master.go] and
    [cache/node/node.go].  Go maps are [gmap]s, Go slices keep the
    difference between [nil] and an empty slice, fallible calls return a
    [result], and every call that leaves the process (HTTP, the metadata
    store, the database master, JSON) is an explicit argument or an
    interface.  Goroutines started with [go] are recorded as spawned work
    and run by an explicit scheduler step. *)

From Stdlib Require Import ZArith.
From Stdlib Require OrderedTypeEx.
From Stdlib.Strings Require Import Byte Ascii.
From stdpp Require Import base gmap strings list sorting.

Local Open Scope Z_scope.

(** ** Shared vocabulary *)

(** A Go call returning [(value, error)] . *)
Inductive result (E A : Type) : Type :=
| Ok (a : A)
| Err (e : E).
Arguments Ok {E A} a.
Arguments Err {E A} e.

(** A Go [[]string]: [None] is the nil slice, [Some []] the empty non-nil
    one.  [reflect.DeepEqual] tells the two apart, and so does [=] here. *)
Definition slice : Type := option (list string).

(** The elements ranged over, passed as variadic arguments or counted by
    [len]: a nil slice has none. *)
Definition elems (s : slice) : list string := default [] s.

(** Go compares strings bytewise, as [String.leb] does. *)
Definition string_le (a b : string) : Prop := String.leb a b = true.

#[global] Instance string_le_dec a b : Decision (string_le a b).
Proof. unfold string_le. apply _. Defined.

(** [sort.StringSlice(l).Sort()] on the elements. *)
Definition sort_strings (l : list string) : list string :=
  merge_sort string_le l.

(** [sort.StringSlice(s).Sort()] sorts in place; a nil slice stays nil. *)
Definition Sort (s : slice) : slice := sort_strings <$> s.

(** HTTP status codes of [net/http]. *)
Definition StatusOK : Z := 200.
Definition StatusBadRequest : Z := 400.
Definition StatusNotFound : Z := 404.
Definition StatusInternalServerError : Z := 500.

(** The parameters pushed by the master: [master.PeerParam], and the same
    shape decoded by the node as [masterParam]. *)
Record PeerParam : Type := mkPeerParam {
  Peers : slice;
  DBs : slice;
}.

(** * The cache master, [cache/master/master.go] *)
Module master.

(** The error values the master produces or receives. *)
Inductive error : Type :=
| ConfigErrDataNotFound                 (* config.ErrDataNotFound *)
| ErrWrongParams                        (* "wrong params" *)
| ErrFailUpdateNodesMap (cause : error) (* "fail updateNodesMap, err: %v" *)
| ErrFailedToSendPeers                  (* "failed to send peers" *)
| ErrExternal (msg : string).           (* any error of a callee *)

(** Modelled from the spec: the metadata store, package [meta], is not
    part of the sources at hand.  It is the interface the master uses:
    [Get] reads a key, [Put] writes one and may fail.  The store is a
    value [M] threaded through the calls. *)
Class Meta (M : Type) : Type := {
  meta_Get : M → string → result error string;
  meta_Put : M → string → string → M * option error;
}.

Record JoinParam : Type := mkJoinParam {
  HTTPAddr : string;
  NodeAddr : string;
}.

(** [type Master struct].  The lock is not a field: every operation
    below is one critical section or a sequence of them. *)
Record Master (M : Type) : Type := mkMaster {
  nodesMap : gmap string string;
  dbs : slice;
  addr : string;
  meta : M;
  nodesMapKey : string;
}.
Arguments mkMaster {M}.
Arguments nodesMap {M}.
Arguments dbs {M}.
Arguments addr {M}.
Arguments meta {M}.
Arguments nodesMapKey {M}.

Definition set_nodesMap {M} (nm : gmap string string) (m : Master M) : Master M :=
  mkMaster nm (dbs m) (addr m) (meta m) (nodesMapKey m).
Definition set_dbs {M} (d : slice) (m : Master M) : Master M :=
  mkMaster (nodesMap m) d (addr m) (meta m) (nodesMapKey m).
Definition set_meta {M} (s : M) (m : Master M) : Master M :=
  mkMaster (nodesMap m) (dbs m) (addr m) s (nodesMapKey m).

(** [func (p nodesMap) httpAddrs() []string]: the keys, sorted. *)
Definition httpAddrs (p : gmap string string) : list string :=
  sort_strings ((map_to_list p).*1).

(** [func (p nodesMap) nodeAddrs() []string]: the values, sorted. *)
Definition nodeAddrs (p : gmap string string) : list string :=
  sort_strings ((map_to_list p).*2).

(** The outcome of [httpPoster.Post]: a transport error or a response,
    of which only the status code is read. *)
Inductive post_outcome : Type :=
| PostErr (msg : string)
| PostResp (StatusCode : Z).

(** [mock.HTTPPoster]: url, content type and body to an outcome. *)
Definition HTTPPoster : Type := string → string → string → post_outcome.

Definition jsonHTTPHeader : string := "application/json".

(** [fmt.Sprintf(heartbeatURLFormat, u)] with the format ["%s/meta"]. *)
Definition heartbeatURL (u : string) : string := u +:+ "/meta".

Section operations.
Context {M : Type} `{!Meta M}.
(** [urlutil.MakeURL]: declared in another package of the repository,
    it is a parameter here. *)
Variable MakeURL : string → string.
(** [encoding/json] on the roster and on the heartbeat body. *)
Variable json_Marshal_nodesMap : gmap string string → result error string.
Variable json_Unmarshal_nodesMap : string → result error (gmap string string).
Variable json_Marshal_PeerParam : PeerParam → result error string.

(** [func (m *Master) fetchNodesMap() (nodesMap, error)] *)
Definition fetchNodesMap (m : Master M) : gmap string string * option error :=
  let nodes : gmap string string := ∅ in
  match meta_Get (meta m) (nodesMapKey m) with
  | Err ConfigErrDataNotFound => (nodes, None)
  | got =>
      let val := match got with Ok v => v | Err _ => "" end in
      match json_Unmarshal_nodesMap val with
      | Err e => (nodes, Some e)
      | Ok decoded => (decoded, None)
      end
  end.

(** [func New(addr string) *Master].  The roster key and the store are
    the package variables [cacheNodesKey] and [meta.Default]; [Err] is the
    [panic(err)]. *)
Definition New (addr key : string) (store : M) : result error (Master M) :=
  let m := mkMaster ∅ None addr store key in
  match fetchNodesMap m with
  | (_, Some err) => Err err
  | (nodesMap, None) => Ok (set_nodesMap nodesMap m)
  end.

(** [func (m *Master) Peers() ([]string, error)] *)
Definition Peers (m : Master M) : slice * option error :=
  match fetchNodesMap m with
  | (_, Some err) => (None, Some err)
  | (peers, None) => (Some (httpAddrs peers), None)
  end.

(** [func (m *Master) setNodesMap(peers nodesMap)] *)
Definition setNodesMap (peers : gmap string string) (m : Master M) : Master M :=
  set_nodesMap peers m.

(** [func (m *Master) updateNodesMap(peers nodesMap) error] *)
Definition updateNodesMap (peers : gmap string string) (m : Master M)
  : Master M * option error :=
  match json_Marshal_nodesMap peers with
  | Err err => (m, Some err)
  | Ok b =>
      let '(store, err) := meta_Put (meta m) (nodesMapKey m) b in
      (set_meta store m, err)
  end.

(** [func (m *Master) JoinNode(args *JoinParam, reply *PeerParam) error].
    [args] may be nil; [*reply] is written on success only, so it is
    the [Ok] value. *)
Definition JoinNode (args : option JoinParam) (m : Master M)
  : Master M * result error PeerParam :=
  match args with
  | None => (m, Err ErrWrongParams)
  | Some args =>
      if bool_decide (HTTPAddr args = "") || bool_decide (NodeAddr args = "")
      then (m, Err ErrWrongParams)
      else
        let m := set_nodesMap
                   (<[MakeURL (HTTPAddr args) := MakeURL (NodeAddr args)]> (nodesMap m)) m in
        match updateNodesMap (nodesMap m) m with
        | (m, Some err) => (m, Err (ErrFailUpdateNodesMap err))
        | (m, None) =>
            (m, Ok (mkPeerParam (Some (httpAddrs (nodesMap m))) (dbs m)))
        end
  end.

(** The master [JoinNode] holds between its insertion and its call of
    [updateNodesMap]. *)
Definition joined (args : JoinParam) (m : Master M) : Master M :=
  set_nodesMap
    (<[MakeURL (HTTPAddr args) := MakeURL (NodeAddr args)]> (nodesMap m)) m.

(** [func (m *Master) removeNode(node string)] *)
Definition removeNode (node : string) (m : Master M) : Master M :=
  match nodesMap m !! node with
  | None => m
  | Some _ =>
      let m := set_nodesMap (delete node (nodesMap m)) m in
      (* the error of updateNodesMap is logged and dropped *)
      (updateNodesMap (nodesMap m) m).1
  end.

(** [func (m *Master) syncDBs() error]; [peers] is what
    [master.Default.Peers()] of the database master answers. *)
Definition syncDBs (peers : result error slice) (m : Master M)
  : Master M * option error :=
  match peers with
  | Err err => (m, Some err)
  | Ok dbs => (set_dbs dbs m, None)
  end.

(** [func (m *Master) sendPeers(node string, nodes []string) error] *)
Definition sendPeers (peers : result error slice) (post : HTTPPoster)
    (node : string) (nodes : list string) (m : Master M)
  : Master M * option error :=
  match syncDBs peers m with
  | (m, Some err) => (m, Some err)
  | (m, None) =>
      let params := mkPeerParam (Some nodes) (dbs m) in
      match json_Marshal_PeerParam params with
      | Err err => (m, Some err)
      | Ok b =>
          match post (heartbeatURL (MakeURL node)) jsonHTTPHeader b with
          | PostErr msg => (m, Some (ErrExternal msg))
          | PostResp code =>
              if bool_decide (code ≠ StatusOK)
              then (m, Some ErrFailedToSendPeers)
              else (m, None)
          end
      end
  end.

(** Whether a node acknowledges the heartbeat: the database list was
    refreshed, the body encoded, and the POST answered with 200. *)
Definition acks (peers : result error slice) (post : HTTPPoster)
    (node : string) (nodes : list string) : bool :=
  match peers with
  | Err _ => false
  | Ok dbs =>
      match json_Marshal_PeerParam (mkPeerParam (Some nodes) dbs) with
      | Err _ => false
      | Ok b =>
          match post (heartbeatURL (MakeURL node)) jsonHTTPHeader b with
          | PostErr _ => false
          | PostResp code => bool_decide (code = StatusOK)
          end
      end
  end.

(** The goroutine [heartbeat] starts for one node:
    [err := m.sendPeers(node, nodePeers); if err != nil { m.removeNode(node) }]. *)
Definition heartbeat_node (peers : result error slice) (post : HTTPPoster)
    (nodePeers : list string) (node : string) (m : Master M) : Master M :=
  match sendPeers peers post node nodePeers m with
  | (m, Some _) => removeNode node m
  | (m, None) => m
  end.

(** One tick of [heartbeat]: the roster is snapshotted, and one
    goroutine per http address is started.  [world node] is what the
    database master and the network answer to the goroutine of [node];
    the goroutines run here one after the other, in the order of the
    range loop. *)
Definition heartbeat_tick (world : string → result error slice * HTTPPoster)
    (m : Master M) : Master M :=
  let nodesMap := nodesMap m in
  let nodePeers := nodeAddrs nodesMap in
  foldl (λ m nodeURL,
           heartbeat_node (world nodeURL).1 (world nodeURL).2 nodePeers nodeURL m)
        m (httpAddrs nodesMap).

End operations.

End master.

(** * The cache node, [cache/node/node.go] *)
Module node.

(** The error values of the node.  [ErrDataNotFound] and
    [ErrDatabaseQueryTimeout] are the two package-level sentinels the
    code compares against with [==]; the others are built on the spot. *)
Inductive error : Type :=
| ErrDataNotFound
| ErrDatabaseQueryTimeout
| ErrDatabasesNotAvailable      (* "databases are not available" *)
| ErrLostData (key : string)    (* "database error, lost data of key: %s" *)
| ErrFailedToFetch              (* "failed to fetch data" *)
| ErrExternal (msg : string).   (* any error of a callee *)

#[global] Instance error_eq_dec : EqDecision error.
Proof. solve_decision. Defined.

(** The outcome of [httpGetter.Get]: a transport error, or a response
    with its status code and what [ioutil.ReadAll] makes of the body. *)
Inductive get_outcome : Type :=
| GetErr (msg : string)
| GetResp (StatusCode : Z) (Body : result string (list byte)).

(** [mock.HTTPGetter]: url to outcome. *)
Definition HTTPGetter : Type := string → get_outcome.

(** [fmt.Sprintf(dbGetURLFormat, u, key)] with the format ["%s/i/key/%s"]. *)
Definition dbGetURL (u key : string) : string := u +:+ "/i/key/" +:+ key.

(** [type Node struct]: the fields the handlers and the loader use.
    [pool] is the peer set last given to [pool.Set]. *)
Record Node : Type := mkNode {
  dbs : slice;
  fastDB : string;
  peers : slice;
  masterAddr : string;
  httpAddr : string;
  nodeAddr : string;
  pool : list string;
}.

(** What a gin handler writes: [ctx.JSON(code, nil)] sends the JSON
    [null], [ctx.JSON(code, gin.H{"error": msg})] an object with the
    message, [ctx.Writer.Write(b)] the bytes as they are. *)
Inductive payload : Type :=
| JSONNil
| JSONError (msg : string)
| Raw (b : list byte).

Record response : Type := mkResponse {
  status : Z;
  ContentType : string;
  body : payload;
}.

Definition jsonContentType : string := "application/json; charset=utf-8".

(** [ctx.JSON(code, obj)] *)
Definition ctx_JSON (code : Z) (obj : payload) : response :=
  mkResponse code jsonContentType obj.

(** [func (node *Node) setFastDB(db string)] *)
Definition setFastDB (db : string) (n : Node) : Node :=
  mkNode (dbs n) db (peers n) (masterAddr n) (httpAddr n) (nodeAddr n) (pool n).

(** The body of [join] and of [handleMeta] under the write lock:
    [node.pool.Set(p...); node.peers = p; node.dbs = d]. *)
Definition set_meta (p d : slice) (n : Node) : Node :=
  mkNode d (fastDB n) p (masterAddr n) (httpAddr n) (nodeAddr n) (elems p).

(** [func (node *Node) join() error], given what the RPC
    [Master.JoinNode] answered. *)
Definition join (reply : result string PeerParam) (n : Node)
  : Node * option error :=
  match reply with
  | Err msg => (n, Some (ErrExternal msg))
  | Ok reply => (set_meta (Peers reply) (DBs reply) n, None)
  end.

(** [func (node *Node) handleMeta(ctx *gin.Context)]; [bind] is what
    [ctx.BindJSON(&params)] decoded, or its error message. *)
Definition handleMeta (bind : result string PeerParam) (n : Node)
  : Node * response :=
  match bind with
  | Err msg => (n, ctx_JSON StatusBadRequest (JSONError msg))
  | Ok params =>
      let Peers := Sort (Peers params) in
      let DBs := Sort (DBs params) in
      if bool_decide (peers n = Peers) && bool_decide (dbs n = DBs)
      then (n, ctx_JSON StatusOK JSONNil)
      else (set_meta Peers DBs n, ctx_JSON StatusOK JSONNil)
  end.

(** [func (node *Node) handleGetKey(ctx *gin.Context)]; [got] is the
    byte view and the error [node.group.Get] came back with. *)
Definition handleGetKey (got : list byte * option error) : response :=
  match got.2 with
  | Some ErrDataNotFound => ctx_JSON StatusNotFound JSONNil
  | Some _ => ctx_JSON StatusInternalServerError JSONNil
  | None => mkResponse StatusOK jsonContentType (Raw got.1)
  end.

(** One goroutine of the race reaching its critical section: the index
    of its database in [dbs] and the getter as it answered that
    goroutine. *)
Record completion : Type := mkCompletion {
  c_db : nat;
  c_get : HTTPGetter;
}.

(** A race won, for the history: the key looked up, the goroutine that
    won, and what [fastURL], the value received and [resErr] were. *)
Record win : Type := mkWin {
  w_key : string;
  w_by : completion;
  w_url : string;
  w_val : list byte;
  w_err : option error;
}.

(** What one call of the loader leaves behind: the error returned, the
    bytes given to [dest.SetBytes], the arguments of the
    [go node.setFastDB(..)] it started, in order, and the URLs it asked
    [httpGetter] for.  [elected] is a ghost: the race won, if one was. *)
Record outcome : Type := mkOutcome {
  ret : option error;
  sink : option (list byte);
  spawned : list string;
  requests : list string;
  elected : option win;
}.

(** The variables [tryAllDBFind] shares with its goroutines; [data] is
    the channel, holding the value once it was sent.  [winner] is a
    ghost: the goroutine that set [got]. *)
Record race : Type := mkRace {
  got : bool;
  data : option (list byte);
  completeCount : nat;
  fastURL : string;
  resErr : option error;
  winner : option completion;
}.

Definition race_start : race := mkRace false None 0 "" None None.

Section loader.
(** [urlutil.MakeURL], a parameter as in the master. *)
Variable MakeURL : string → string.

(** [func (node *Node) find(key string, url string) ([]byte, error)] *)
Definition find (get : HTTPGetter) (key url : string)
  : list byte * option error :=
  let url := dbGetURL (MakeURL url) key in
  match get url with
  | GetErr msg => ([], Some (ErrExternal msg))
  | GetResp code Body =>
      if bool_decide (code = StatusNotFound) then ([], Some ErrDataNotFound)
      else if bool_decide (code = StatusOK) then
        match Body with
        | Err msg => ([], Some (ErrExternal msg))
        | Ok b =>
            if bool_decide (length b = 0%nat) then ([], Some (ErrLostData key))
            else (b, None)
        end
      else ([], Some ErrFailedToFetch)
  end.

(** The goroutine body of the race, from [val, err := node.find(key, url)]
    to the end of its critical section.  Nothing ever assigns
    [completeCount]. *)
Definition complete (key : string) (dbs : list string) (r : race)
    (c : completion) : race :=
  match dbs !! c_db c with
  | None => r
  | Some url =>
      let '(val, err) := find (c_get c) key url in
      if bool_decide (0 < length val)%nat
         || bool_decide (err = Some ErrDataNotFound)
         || bool_decide (completeCount r = length dbs)
      then
        if negb (got r)
        then mkRace true (Some val) (completeCount r) url err (Some c)
        else r
      else r
  end.

(** How one race went: the goroutines that reached their critical
    section before the [select] was decided, in that order, and whether
    the timer fired before the value sent on [data] was received. *)
Record schedule : Type := mkSchedule {
  completed : list completion;
  timer_first : bool;
}.

(** The shared variables once the goroutines of [done] have run, in
    that order. *)
Definition run_race (key : string) (dbs : list string)
    (done : list completion) : race :=
  foldl (complete key dbs) race_start done.

(** [func (node *Node) tryAllDBFind(ctx, key, dest) error].  When no
    goroutine of the schedule sent on [data], only the timer can fire;
    when one did, the [select] takes the value unless the timer came
    first. *)
Definition tryAllDBFind (key : string) (sc : schedule) (n : Node)
  : outcome :=
  let dbs := elems (dbs n) in
  if bool_decide (length dbs = 0%nat)
  then mkOutcome (Some ErrDatabasesNotAvailable) None [] [] None
  else
    let asked := (λ url, dbGetURL (MakeURL url) key) <$> dbs in
    let timeout := mkOutcome (Some ErrDatabaseQueryTimeout) None [""] asked None in
    let r := run_race key dbs (completed sc) in
    match data r with
    | None => timeout
    | Some value =>
        if timer_first sc then timeout else
        mkOutcome (resErr r) (Some value)
          (if bool_decide (0 < length value)%nat
              || bool_decide (resErr r = Some ErrDataNotFound)
           then [fastURL r] else [])
          asked
          ((λ c, mkWin key c (fastURL r) value (resErr r)) <$> winner r)
    end.

(** [func (node *Node) fetchData(ctx, key, dest) error]; [get] is the
    getter as it answers the lookup at [fastDB]. *)
Definition fetchData (get : HTTPGetter) (key : string)
    (sc : schedule) (n : Node) : outcome :=
  if bool_decide (fastDB n = "") then tryAllDBFind key sc n
  else
    let asked := dbGetURL (MakeURL (fastDB n)) key in
    match find get key (fastDB n) with
    | (_, Some ErrDataNotFound) =>
        mkOutcome (Some ErrDataNotFound) None [] [asked] None
    | (_, Some _) =>
        let o := tryAllDBFind key sc n in
        mkOutcome (ret o) (sink o) ("" :: spawned o) (asked :: requests o)
          (elected o)
    | (data, None) => mkOutcome None (Some data) [] [asked] None
    end.

(** What holds of the shared variables all along the race. *)
Definition race_inv (key : string) (dbs : list string) (r : race) : Prop :=
  completeCount r = 0%nat
  ∧ if got r
    then ∃ val c,
        data r = Some val
        ∧ winner r = Some c
        ∧ dbs !! c_db c = Some (fastURL r)
        ∧ find (c_get c) key (fastURL r) = (val, resErr r)
        ∧ ((0 < length val)%nat ∨ resErr r = Some ErrDataNotFound)
    else data r = None.

(** What a database answered to the lookup of [key] at [url]: 200
    with the non-empty body [val], or 404. *)
Definition answered_bytes (get : HTTPGetter) (key url : string)
    (val : list byte) : Prop :=
  get (dbGetURL (MakeURL url) key) = GetResp StatusOK (Ok val) ∧ val ≠ [].

Definition answered_not_found (get : HTTPGetter) (key url : string) : Prop :=
  ∃ Body, get (dbGetURL (MakeURL url) key) = GetResp StatusNotFound Body.

(** A race won by a goroutine whose lookup was answered with 200 and
    bytes, or with 404, that is with the result [DataNotFound]. *)
Definition good_win (w : win) : Prop :=
  (answered_bytes (c_get (w_by w)) (w_key w) (w_url w) (w_val w)
   ∧ w_err w = None)
  ∨ (answered_not_found (c_get (w_by w)) (w_key w) (w_url w)
     ∧ w_val w = [] ∧ w_err w = Some ErrDataNotFound).

End loader.

(** ** The node with its detached goroutines

    [go node.setFastDB(db)] does not run where it is written.  [sys]
    keeps the calls started and not yet run; [wins] is a ghost history
    of the winners the races elected. *)
Record sys : Type := mkSys {
  nd : Node;
  pending : list string;
  wins : list win;
}.

(** [strings.TrimSuffix(s, "/")] *)
Fixpoint trim_slash (s : string) : string :=
  match s with
  | EmptyString => EmptyString
  | String c EmptyString => if bool_decide (c = "/"%char) then EmptyString else s
  | String c rest => String c (trim_slash rest)
  end.

(** A node as [New] builds it: no peers, no databases, no fast
    database. *)
Definition New (httpAddr nodeAddr masterAddr : string) : Node :=
  mkNode None "" None (trim_slash masterAddr) httpAddr nodeAddr [].

Definition boot (httpAddr nodeAddr masterAddr : string) : sys :=
  mkSys (New httpAddr nodeAddr masterAddr) [] [].

Section system.
Variable MakeURL : string → string.

Inductive step : sys → sys → Prop :=
| step_join reply s :
    step s (mkSys (join reply (nd s)).1 (pending s) (wins s))
| step_meta bind s :
    step s (mkSys (handleMeta bind (nd s)).1 (pending s) (wins s))
| step_fetch get key sc s :
    let o := fetchData MakeURL get key sc (nd s) in
    step s (mkSys (nd s) (pending s ++ spawned o)
                  (wins s ++ option_list (elected o)))
| step_setFastDB i db s :
    pending s !! i = Some db →
    step s (mkSys (setFastDB db (nd s)) (delete i (pending s)) (wins s)).

(** A value for [fastDB]: empty, or the URL of a winner of the
    history that answered with bytes or with 404. *)
Definition names_winner (ws : list win) (db : string) : Prop :=
  db = "" ∨ ∃ w, w ∈ ws ∧ w_url w = db ∧ good_win MakeURL w.

(** The invariant: [fastDB] and every [setFastDB] still to run name a
    winner. *)
Definition sys_inv (s : sys) : Prop :=
  names_winner (wins s) (fastDB (nd s))
  ∧ Forall (names_winner (wins s)) (pending s).

(** The states the node goes through from [boot]. *)
Inductive reachable (s0 : sys) : sys → Prop :=
| reach_boot : reachable s0 s0
| reach_step s s' : reachable s0 s → step s s' → reachable s0 s'.

End system.

End node.

(** * Stand-ins for the collaborators

    An in-memory metadata store, an encoder and a decoder for rosters
    whose addresses need no escaping, and a [MakeURL] for addresses that
    are URLs already.  The theorems below hold for every collaborator;
    these instances let the operations run on concrete rosters. *)
Module standin.

(** A store that is a plain map; when it is read-only it refuses the
    writes and keeps what it has. *)
Record MemMeta : Type := mkMemMeta {
  mm_data : gmap string string;
  mm_readonly : bool;
}.

Definition refused : master.error := master.ErrExternal "meta: read-only".

#[global] Instance MemMeta_Meta : master.Meta MemMeta := {|
  master.meta_Get s k :=
    match mm_data s !! k with
    | Some v => Ok v
    | None => Err master.ConfigErrDataNotFound
    end;
  master.meta_Put s k v :=
    if mm_readonly s then (s, Some refused)
    else (mkMemMeta (<[k := v]> (mm_data s)) false, None);
|}.

Definition MakeURL (a : string) : string := a.

(** The double quote, character 34. *)
Definition dquote : ascii := ascii_of_nat 34.

Definition quote (s : string) : string :=
  String dquote "" +:+ s +:+ String dquote "".

Fixpoint join_with (sep : string) (l : list string) : string :=
  match l with
  | [] => ""
  | [x] => x
  | x :: l => x +:+ sep +:+ join_with sep l
  end.

(** The roster as a JSON object; [map_to_list] of a [gmap string] lists
    the keys in a fixed order. *)
Definition Marshal_nodesMap (p : gmap string string)
  : result master.error string :=
  Ok ("{" +:+ join_with "," ((λ kv, quote kv.1 +:+ ":" +:+ quote kv.2) <$> map_to_list p)
      +:+ "}").

Definition Marshal_slice (s : slice) : string :=
  match s with
  | None => "null"
  | Some l => "[" +:+ join_with "," (quote <$> l) +:+ "]"
  end.

Definition Marshal_PeerParam (p : PeerParam) : result master.error string :=
  Ok ("{" +:+ quote "peers" +:+ ":" +:+ Marshal_slice (Peers p) +:+ ","
      +:+ quote "dbs" +:+ ":" +:+ Marshal_slice (DBs p) +:+ "}").

(** Where the decoder stands in the text of a roster. *)
Inductive phase : Type :=
| AtOpen | AtFirstKey | InKey | AtColon | AtValue | InValue | AtNext | AtKey
| AtEnd | Bad.

Record decoder : Type := mkDecoder {
  dc_phase : phase;
  dc_key : string;
  dc_buf : string;
  dc_map : gmap string string;
}.

Definition feed (d : decoder) (c : ascii) : decoder :=
  let goto p := mkDecoder p (dc_key d) (dc_buf d) (dc_map d) in
  let q := bool_decide (c = dquote) in
  match dc_phase d with
  | AtOpen => if bool_decide (c = "{"%char) then goto AtFirstKey else goto Bad
  | AtFirstKey =>
      if q then mkDecoder InKey "" "" (dc_map d)
      else if bool_decide (c = "}"%char) then goto AtEnd else goto Bad
  | AtKey => if q then mkDecoder InKey "" "" (dc_map d) else goto Bad
  | InKey =>
      if q then mkDecoder AtColon (dc_buf d) "" (dc_map d)
      else mkDecoder InKey "" (dc_buf d +:+ String c "") (dc_map d)
  | AtColon => if bool_decide (c = ":"%char) then goto AtValue else goto Bad
  | AtValue => if q then mkDecoder InValue (dc_key d) "" (dc_map d) else goto Bad
  | InValue =>
      if q then mkDecoder AtNext "" "" (<[dc_key d := dc_buf d]> (dc_map d))
      else mkDecoder InValue (dc_key d) (dc_buf d +:+ String c "") (dc_map d)
  | AtNext =>
      if bool_decide (c = ","%char) then goto AtKey
      else if bool_decide (c = "}"%char) then goto AtEnd else goto Bad
  | AtEnd => goto Bad
  | Bad => d
  end.

Definition Unmarshal_nodesMap (s : string)
  : result master.error (gmap string string) :=
  let d := foldl feed (mkDecoder AtOpen "" "" ∅) (String.list_ascii_of_string s) in
  match dc_phase d with
  | AtEnd => Ok (dc_map d)
  | _ => Err (master.ErrExternal "json: cannot unmarshal")
  end.

(** A poster and a getter are plain functions; these answer the same
    to every request. *)
Definition post_always (o : master.post_outcome) : master.HTTPPoster :=
  λ _ _ _, o.
Definition get_always (o : node.get_outcome) : node.HTTPGetter := λ _, o.

Definition bytes (s : string) : list byte := String.list_byte_of_string s.

(** Databases that hold the value, do not hold the key, fail, or are
    out of reach. *)
Definition serves (v : string) : node.HTTPGetter :=
  get_always (node.GetResp StatusOK (Ok (bytes v))).
Definition lacks : node.HTTPGetter :=
  get_always (node.GetResp StatusNotFound (Ok [])).
Definition broken : node.HTTPGetter :=
  get_always (node.GetResp StatusInternalServerError (Ok [])).
Definition unreachable : node.HTTPGetter :=
  get_always (node.GetErr "connection refused").

Definition db_a : string := "http://10.0.1.1:5560".
Definition db_b : string := "http://10.0.1.2:5560".

(** A node that joined and was told of two peers and two databases. *)
Definition booted : node.sys :=
  node.boot "http://10.0.0.1:5551" "http://10.0.0.1:5552" ":5550".
Definition told : PeerParam :=
  mkPeerParam (Some ["http://10.0.0.1:5551"; "http://10.0.0.2:5551"])
              (Some [db_a; db_b]).
Definition member : node.sys :=
  node.mkSys (node.join (Ok told) (node.nd booted)).1
             (node.pending booted) (node.wins booted).

(** The miss on ["x"] that [db_b] answers first, and the node once the
    [setFastDB] that miss started has run. *)
Definition b_first : node.schedule :=
  node.mkSchedule
    [node.mkCompletion 1 (serves "v1"); node.mkCompletion 0 (serves "v1")] false.
Definition raced : node.sys :=
  let o := node.fetchData MakeURL unreachable "x" b_first (node.nd member) in
  node.mkSys (node.nd member) (node.pending member ++ node.spawned o)
             (node.wins member ++ option_list (node.elected o)).
Definition latched : node.sys :=
  node.mkSys (node.setFastDB db_b (node.nd raced))
             (delete 0%nat (node.pending raced)) (node.wins raced).

(** The miss during which both databases fail before the deadline. *)
Definition both_fail : node.schedule :=
  node.mkSchedule
    [node.mkCompletion 0 broken; node.mkCompletion 1 unreachable] false.

(** A master that has no node yet, on a store that takes writes and on
    one that refuses them, and two nodes. *)
Definition fresh : master.Master MemMeta :=
  master.mkMaster ∅ None ":5550" (mkMemMeta ∅ false) "oncekv.cache.nodes".
Definition stuck : master.Master MemMeta :=
  master.mkMaster ∅ None ":5550" (mkMemMeta ∅ true) "oncekv.cache.nodes".
Definition n1 : master.JoinParam :=
  master.mkJoinParam "http://10.0.0.1:5551" "http://10.0.0.1:5552".
Definition n2 : master.JoinParam :=
  master.mkJoinParam "http://10.0.0.2:5551" "http://10.0.0.2:5552".

Definition JoinNode := master.JoinNode (M:=MemMeta) MakeURL Marshal_nodesMap.

(** [fresh] after [n1] and [n2] joined. *)
Definition both : master.Master MemMeta :=
  (JoinNode (Some n2) (JoinNode (Some n1) fresh).1).1.

Definition heartbeat_tick :=
  master.heartbeat_tick (M:=MemMeta) MakeURL Marshal_nodesMap Marshal_PeerParam.

(** Every node answers the heartbeat with 200; the database master
    answers its list, or is out of reach. *)
Definition healthy : string → result master.error slice * master.HTTPPoster :=
  λ _, (Ok (Some ["http://10.0.1.1:5560"]), post_always (master.PostResp StatusOK)).
Definition dbmaster_unreachable
  : string → result master.error slice * master.HTTPPoster :=
  λ _, (Err (master.ErrExternal "db/master: connection refused"),
        post_always (master.PostResp StatusOK)).

End standin.

(** * Properties of the master *)
Section master_spec.
Import master.
Context {M : Type} `{!Meta M}.
Variable MakeURL : string → string.
Variable json_Marshal_nodesMap : gmap string string → result error string.
Variable json_Marshal_PeerParam : PeerParam → result error string.

Local Abbreviation updateNodesMap := (updateNodesMap json_Marshal_nodesMap).
Local Abbreviation JoinNode := (JoinNode MakeURL json_Marshal_nodesMap).
Local Abbreviation joined := (joined MakeURL).
Local Abbreviation removeNode := (removeNode json_Marshal_nodesMap).
Local Abbreviation sendPeers := (sendPeers MakeURL json_Marshal_PeerParam).
Local Abbreviation heartbeat_node :=
  (heartbeat_node MakeURL json_Marshal_nodesMap json_Marshal_PeerParam).

Lemma updateNodesMap_frame peers (m m' : Master M) err :
  updateNodesMap peers m = (m', err) →
  nodesMap m' = nodesMap m ∧ dbs m' = dbs m ∧ nodesMapKey m' = nodesMapKey m.
Proof.
  unfold master.updateNodesMap.
  destruct (json_Marshal_nodesMap peers) as [b|e].
  - destruct (meta_Put _ _ _) as [store e']. by intros [= <- <-].
  - by intros [= <- <-].
Qed.

(** A successful [updateNodesMap] is a successful [Put] of the encoded
    roster under the roster key, and the store kept is the one [Put]
    returned. *)
Lemma updateNodesMap_ok peers (m m' : Master M) :
  updateNodesMap peers m = (m', None) →
  ∃ b, json_Marshal_nodesMap peers = Ok b
       ∧ meta_Put (meta m) (nodesMapKey m) b = (meta m', None).
Proof.
  unfold master.updateNodesMap.
  destruct (json_Marshal_nodesMap peers) as [b|e]; [|done].
  destruct (meta_Put _ _ _) as [store e'] eqn:Hput.
  intros [= <- ->]. by exists b.
Qed.

Lemma JoinNode_valid args (m : Master M) :
  HTTPAddr args ≠ "" → NodeAddr args ≠ "" →
  JoinNode (Some args) m =
    match updateNodesMap (nodesMap (joined args m)) (joined args m) with
    | (m', Some err) => (m', Err (ErrFailUpdateNodesMap err))
    | (m', None) => (m', Ok (mkPeerParam (Some (httpAddrs (nodesMap m'))) (dbs m')))
    end.
Proof.
  intros Hh Hn. unfold master.JoinNode.
  rewrite !bool_decide_eq_false_2 by done. done.
Qed.

Lemma JoinNode_Ok_inv args (m m' : Master M) reply :
  JoinNode args m = (m', Ok reply) →
  ∃ a, args = Some a ∧ HTTPAddr a ≠ "" ∧ NodeAddr a ≠ ""
       ∧ updateNodesMap (nodesMap (joined a m)) (joined a m) = (m', None).
Proof.
  destruct args as [a|]; [|done]. unfold master.JoinNode.
  destruct (bool_decide (HTTPAddr a = "")) eqn:Hh; [done|].
  destruct (bool_decide (NodeAddr a = "")) eqn:Hn; [done|].
  apply bool_decide_eq_false in Hh, Hn. simpl.
  fold (joined a m).
  destruct (updateNodesMap _ _) as [m1 [e|]] eqn:Hup; [done|].
  intros [= <- <-]. by exists a.
Qed.

Lemma updateNodesMap_put_failure peers (m : Master M) b store err :
  json_Marshal_nodesMap peers = Ok b →
  meta_Put (meta m) (nodesMapKey m) b = (store, Some err) →
  updateNodesMap peers m = (set_meta store m, Some err).
Proof. unfold master.updateNodesMap. by intros -> ->. Qed.

Lemma updateNodesMap_marshal_failure peers (m : Master M) err :
  json_Marshal_nodesMap peers = Err err →
  updateNodesMap peers m = (m, Some err).
Proof. unfold master.updateNodesMap. by intros ->. Qed.

(** C6. When [JoinNode] returns success, the pair of the joining node is
    in the roster and a [Put] of that encoded roster under the roster key
    has succeeded, the store kept being the one that [Put] returned; the
    reply is built from the state after the write.  When the [Put] fails,
    or the roster cannot be encoded, [JoinNode] returns an error. *)
Theorem JoinNode_success_persisted :
  (∀ args (m m' : Master M) reply,
      JoinNode args m = (m', Ok reply) →
      ∃ a b,
        args = Some a
        ∧ nodesMap m' !! MakeURL (HTTPAddr a) = Some (MakeURL (NodeAddr a))
        ∧ json_Marshal_nodesMap (nodesMap m') = Ok b
        ∧ meta_Put (meta m) (nodesMapKey m) b = (meta m', None)
        ∧ reply = mkPeerParam (Some (httpAddrs (nodesMap m'))) (dbs m'))
  ∧ (∀ a (m : Master M) b store err,
        HTTPAddr a ≠ "" → NodeAddr a ≠ "" →
        json_Marshal_nodesMap (nodesMap (joined a m)) = Ok b →
        meta_Put (meta m) (nodesMapKey m) b = (store, Some err) →
        JoinNode (Some a) m
        = (set_meta store (joined a m), Err (ErrFailUpdateNodesMap err)))
  ∧ (∀ a (m : Master M) err,
        HTTPAddr a ≠ "" → NodeAddr a ≠ "" →
        json_Marshal_nodesMap (nodesMap (joined a m)) = Err err →
        JoinNode (Some a) m = (joined a m, Err (ErrFailUpdateNodesMap err))).
Proof.
  split_and!.
  - intros args m m' reply HJ.
    destruct (JoinNode_Ok_inv _ _ _ _ HJ) as (a & -> & Hh & Hn & Hup).
    destruct (updateNodesMap_frame _ _ _ _ Hup) as (Hnm & _ & _).
    destruct (updateNodesMap_ok _ _ _ Hup) as (b & Hb & Hput).
    rewrite JoinNode_valid, Hup in HJ by done.
    exists a, b. split_and!; try done.
    + rewrite Hnm. apply lookup_insert_eq.
    + by rewrite Hnm.
    + congruence.
  - intros a m b store err Hh Hn Hb Hput.
    rewrite JoinNode_valid by done.
    by rewrite (updateNodesMap_put_failure _ (joined a m) b store err Hb Hput).
  - intros a m err Hh Hn Hb.
    rewrite JoinNode_valid by done.
    by rewrite (updateNodesMap_marshal_failure _ (joined a m) err Hb).
Qed.

(** C9. When persisting the roster fails inside [JoinNode], the call
    returns an error and the master it leaves still holds the inserted
    pair: nothing takes the insertion back. *)
Theorem JoinNode_failure_keeps_insert a (m m' : Master M) err :
  HTTPAddr a ≠ "" → NodeAddr a ≠ "" →
  updateNodesMap (nodesMap (joined a m)) (joined a m) = (m', Some err) →
  JoinNode (Some a) m = (m', Err (ErrFailUpdateNodesMap err))
  ∧ nodesMap m' = <[MakeURL (HTTPAddr a) := MakeURL (NodeAddr a)]> (nodesMap m)
  ∧ nodesMap m' !! MakeURL (HTTPAddr a) = Some (MakeURL (NodeAddr a)).
Proof.
  intros Hh Hn Hup.
  destruct (updateNodesMap_frame _ _ _ _ Hup) as (Hnm & _ & _).
  rewrite JoinNode_valid, Hup by done.
  split; [done|]. split; [exact Hnm|].
  rewrite Hnm. apply lookup_insert_eq.
Qed.

(** C10. [removeNode] with an address that is not in the roster returns
    the master as it was: the roster, the store and every other field. *)
Theorem removeNode_absent node (m : Master M) :
  nodesMap m !! node = None →
  removeNode node m = m
  ∧ nodesMap (removeNode node m) = nodesMap m
  ∧ meta (removeNode node m) = meta m.
Proof.
  intros Hnone. unfold master.removeNode. by rewrite Hnone.
Qed.

(** A failed refresh of the database list makes [sendPeers] fail
    before anything is posted. *)
Lemma sendPeers_refresh_failure err post node nodes (m : Master M) :
  sendPeers (Err err) post node nodes m = (m, Some err).
Proof. done. Qed.

(** ... and the heartbeat goroutine then removes the node. *)
Lemma heartbeat_node_refresh_failure err post nodePeers node (m : Master M) :
  heartbeat_node (Err err) post nodePeers node m = removeNode node m.
Proof. done. Qed.

Lemma removeNode_present node peer (m : Master M) :
  nodesMap m !! node = Some peer →
  nodesMap (removeNode node m) = delete node (nodesMap m).
Proof.
  intros Hsome. unfold master.removeNode. rewrite Hsome.
  destruct (updateNodesMap _ _) as [m' e] eqn:Hup.
  destruct (updateNodesMap_frame _ _ _ _ Hup) as (Hnm & _ & _).
  simpl. by rewrite Hnm.
Qed.

End master_spec.

(** ** The master on the in-memory store *)

(** C9. When persisting the roster fails inside [JoinNode], the call
    returns an error and the inserted pair stays in the roster in memory:
    there is no rollback.  On a store that refuses the write, the roster in
    memory then holds the node while the persisted roster, read back with
    [fetchNodesMap], is empty. *)
Theorem JoinNode_failure_no_rollback :
  (∀ (M : Type) (H : master.Meta M) MakeURL marshal a (m m' : master.Master M) err,
      master.HTTPAddr a ≠ "" → master.NodeAddr a ≠ "" →
      master.updateNodesMap marshal
        (master.nodesMap (master.joined MakeURL a m)) (master.joined MakeURL a m)
        = (m', Some err) →
      master.JoinNode MakeURL marshal (Some a) m
        = (m', Err (master.ErrFailUpdateNodesMap err))
      ∧ master.nodesMap m'
        = <[MakeURL (master.HTTPAddr a) := MakeURL (master.NodeAddr a)]>
            (master.nodesMap m))
  ∧ (∃ m' err,
        standin.JoinNode (Some standin.n1) standin.stuck = (m', Err err)
        ∧ master.nodesMap m' !! master.HTTPAddr standin.n1
          = Some (master.NodeAddr standin.n1)
        ∧ master.fetchNodesMap standin.Unmarshal_nodesMap m' = (∅, None)).
Proof.
  split.
  - intros M H MakeURL marshal a m m' err Hh Hn Hup.
    destruct (JoinNode_failure_keeps_insert MakeURL marshal a m m' err Hh Hn Hup)
      as (HJ & Hnm & _).
    done.
  - eexists _, _. split_and!.
    + vm_compute. reflexivity.
    + vm_compute. reflexivity.
    + vm_compute. reflexivity.
Qed.

Lemma JoinNode_failure_no_rollback_witness :
  standin.JoinNode (Some standin.n1) standin.stuck
  = (master.joined standin.MakeURL standin.n1 standin.stuck,
     Err (master.ErrFailUpdateNodesMap standin.refused))
  ∧ master.nodesMap (master.joined standin.MakeURL standin.n1 standin.stuck)
    = <[master.HTTPAddr standin.n1 := master.NodeAddr standin.n1]> ∅.
Proof.
  apply (proj1 JoinNode_failure_no_rollback standin.MemMeta _
           standin.MakeURL standin.Marshal_nodesMap standin.n1 standin.stuck).
  - vm_compute. discriminate.
  - vm_compute. discriminate.
  - vm_compute. reflexivity.
Defined.

Lemma JoinNode_success_persisted_witness :
  (∃ a b,
      Some standin.n1 = Some a
      ∧ master.nodesMap (standin.JoinNode (Some standin.n1) standin.fresh).1
          !! standin.MakeURL (master.HTTPAddr a)
        = Some (standin.MakeURL (master.NodeAddr a))
      ∧ standin.Marshal_nodesMap
          (master.nodesMap (standin.JoinNode (Some standin.n1) standin.fresh).1)
        = Ok b
      ∧ master.meta_Put (master.meta standin.fresh)
          (master.nodesMapKey standin.fresh) b
        = (master.meta (standin.JoinNode (Some standin.n1) standin.fresh).1, None))
  ∧ standin.JoinNode (Some standin.n1) standin.stuck
    = (master.set_meta (master.meta standin.stuck)
         (master.joined standin.MakeURL standin.n1 standin.stuck),
       Err (master.ErrFailUpdateNodesMap standin.refused)).
Proof.
  split.
  - destruct (proj1 (JoinNode_success_persisted standin.MakeURL
                       standin.Marshal_nodesMap)
                (Some standin.n1) standin.fresh
                (standin.JoinNode (Some standin.n1) standin.fresh).1
                (mkPeerParam (Some ["http://10.0.0.1:5551"]) None))
      as (a & b & Ha & Hl & Hb & Hput & _).
    + vm_compute. reflexivity.
    + exists a, b. done.
  - eapply (proj1 (proj2 (JoinNode_success_persisted standin.MakeURL
                            standin.Marshal_nodesMap))
              standin.n1 standin.stuck).
    + vm_compute. discriminate.
    + vm_compute. discriminate.
    + vm_compute. reflexivity.
    + vm_compute. reflexivity.
Defined.

(** Read back from the store, the roster holds both nodes after both
    joined. *)
Example roster_read_back :
  master.fetchNodesMap standin.Unmarshal_nodesMap standin.both
  = (master.nodesMap standin.both, None)
  ∧ master.httpAddrs (master.nodesMap standin.both)
    = ["http://10.0.0.1:5551"; "http://10.0.0.2:5551"].
Proof. split; vm_compute; reflexivity. Qed.

Lemma removeNode_absent_witness :
  master.removeNode standin.Marshal_nodesMap "http://10.0.0.9:5551" standin.both
  = standin.both.
Proof.
  apply (removeNode_absent standin.Marshal_nodesMap "http://10.0.0.9:5551"
           standin.both).
  vm_compute. reflexivity.
Defined.

(** C1, as the code has it.  With two healthy nodes in the roster, a
    heartbeat tick during which the database master answers leaves the
    roster as it is; a tick during which the refresh of the database list
    fails removes both nodes from the roster in memory and from the
    persisted one, although each of them would have answered 200. *)
Theorem heartbeat_refresh_failure_evicts :
  master.nodesMap (standin.heartbeat_tick standin.healthy standin.both)
  = master.nodesMap standin.both
  ∧ master.nodesMap (standin.heartbeat_tick standin.dbmaster_unreachable standin.both)
    = ∅
  ∧ master.fetchNodesMap standin.Unmarshal_nodesMap
      (standin.heartbeat_tick standin.dbmaster_unreachable standin.both)
    = (∅, None).
Proof. split_and!; vm_compute; reflexivity. Qed.

(** * Properties of the node *)
Section node_spec.
Import node.
Variable MakeURL : string → string.

Local Abbreviation find := (find MakeURL).
Local Abbreviation complete := (complete MakeURL).
Local Abbreviation tryAllDBFind := (tryAllDBFind MakeURL).
Local Abbreviation fetchData := (fetchData MakeURL).
Local Abbreviation good_win := (good_win MakeURL).
Local Abbreviation race_inv := (race_inv MakeURL).

(** ** [find] *)

Lemma find_transport_error get key url msg :
  get (dbGetURL (MakeURL url) key) = GetErr msg →
  find get key url = ([], Some (ErrExternal msg)).
Proof. unfold node.find. by intros ->. Qed.

Lemma find_not_found get key url Body :
  get (dbGetURL (MakeURL url) key) = GetResp StatusNotFound Body →
  find get key url = ([], Some ErrDataNotFound).
Proof. unfold node.find. by intros ->. Qed.

Lemma find_other_status get key url code Body :
  get (dbGetURL (MakeURL url) key) = GetResp code Body →
  code ≠ StatusOK → code ≠ StatusNotFound →
  find get key url = ([], Some ErrFailedToFetch).
Proof.
  unfold node.find. intros -> Hok Hnf.
  by rewrite !bool_decide_eq_false_2.
Qed.

(** A lookup that comes back with bytes or with [ErrDataNotFound] was
    answered with 200 and those bytes, or with 404. *)
Lemma find_good get key url val err :
  find get key url = (val, err) →
  (0 < length val)%nat ∨ err = Some ErrDataNotFound →
  (answered_bytes MakeURL get key url val ∧ err = None)
  ∨ (answered_not_found MakeURL get key url ∧ val = [] ∧ err = Some ErrDataNotFound).
Proof.
  unfold node.find, answered_bytes, answered_not_found.
  destruct (get _) as [msg|code Body] eqn:Hget.
  { intros [= <- <-] [Hlen|Herr]; [simpl in Hlen; lia|done]. }
  case_bool_decide as Hnf.
  { subst code. intros [= <- <-] _. right. eauto. }
  case_bool_decide as Hok.
  - subst code. destruct Body as [b|msg].
    + case_bool_decide as Hlen.
      * intros [= <- <-] [Hl|Herr]; [simpl in Hl; lia|done].
      * intros [= <- <-] _. left. split_and!; [done| |done].
        intros ->. by apply Hlen.
    + intros [= <- <-] [Hl|Herr]; [simpl in Hl; lia|done].
  - intros [= <- <-] [Hl|Herr]; [simpl in Hl; lia|done].
Qed.

(** ** The race *)

Lemma race_inv_start key dbs : race_inv key dbs race_start.
Proof. by split. Qed.

Lemma complete_inv key dbs r c :
  race_inv key dbs r → race_inv key dbs (complete key dbs r c).
Proof.
  intros [Hcount Hgot]. unfold node.complete.
  destruct (dbs !! c_db c) as [url|] eqn:Hurl; [|by split].
  destruct (find (c_get c) key url) as [val err] eqn:Hfind.
  assert (bool_decide (completeCount r = length dbs) = false) as ->.
  { apply bool_decide_eq_false. rewrite Hcount.
    apply lookup_lt_Some in Hurl. lia. }
  rewrite orb_false_r.
  destruct (bool_decide (0 < length val)%nat || bool_decide (err = Some ErrDataNotFound))
    eqn:Hwin; [|by split].
  destruct (got r) eqn:Hg; simpl; [by split; [|rewrite Hg]|].
  split; [done|]. simpl. exists val, c. split_and!; try done.
  apply orb_true_iff in Hwin as [H|H]; apply bool_decide_eq_true in H; auto.
Qed.

Lemma race_inv_fold key dbs done r :
  race_inv key dbs r → race_inv key dbs (foldl (complete key dbs) r done).
Proof.
  revert r. induction done as [|c done IH]; intros r Hr; [done|].
  simpl. by apply IH, complete_inv.
Qed.

Lemma race_inv_run key dbs done :
  race_inv key dbs (run_race MakeURL key dbs done).
Proof. apply race_inv_fold, race_inv_start. Qed.

(** Once a winner is elected the later goroutines change nothing. *)
Lemma complete_latched key dbs r c :
  got r = true → complete key dbs r c = r.
Proof.
  intros Hg. unfold node.complete.
  destruct (dbs !! c_db c); [|done].
  destruct (find _ _ _) as [val err]. rewrite Hg. simpl.
  by destruct (_ || _).
Qed.

(** A goroutine whose lookup failed elects nobody. *)
Lemma complete_failed key dbs r c :
  completeCount r = 0%nat →
  (∀ url, dbs !! c_db c = Some url →
          ∃ e, find (c_get c) key url = ([], Some e) ∧ e ≠ ErrDataNotFound) →
  complete key dbs r c = r.
Proof.
  intros Hcount Hfail. unfold node.complete.
  destruct (dbs !! c_db c) as [url|] eqn:Hurl; [|done].
  destruct (Hfail url eq_refl) as (e & -> & Hne).
  rewrite Hcount. apply lookup_lt_Some in Hurl.
  rewrite !bool_decide_eq_false_2; [done|lia|congruence|simpl; lia].
Qed.

(** When every goroutine that completes has failed, no winner is
    elected, however many of them complete. *)
Lemma race_all_failed key dbs done :
  Forall (λ c, ∀ url, dbs !! c_db c = Some url →
                 ∃ e, find (c_get c) key url = ([], Some e) ∧ e ≠ ErrDataNotFound)
         done →
  run_race MakeURL key dbs done = race_start.
Proof.
  unfold run_race. induction 1 as [|c done Hc _ IH]; [done|].
  simpl. by rewrite complete_failed.
Qed.

(** The race as [tryAllDBFind] runs it. *)
Local Abbreviation race_of key sc n :=
  (run_race MakeURL key (elems (dbs n)) (completed sc)).

Lemma race_no_winner key sc n :
  got (race_of key sc n) = false → data (race_of key sc n) = None.
Proof.
  intros Hg.
  destruct (race_inv_run key (elems (dbs n)) (completed sc)) as [_ Hinv].
  by rewrite Hg in Hinv.
Qed.

(** What [tryAllDBFind] starts as [go node.setFastDB(..)]: the clearing
    call after the deadline, or the promotion of a winner that answered
    with bytes or with 404. *)
Lemma tryAllDBFind_spawned key sc n db :
  db ∈ spawned (tryAllDBFind key sc n) →
  (db = "" ∧ ret (tryAllDBFind key sc n) = Some ErrDatabaseQueryTimeout)
  ∨ ∃ w,
      elected (tryAllDBFind key sc n) = Some w
      ∧ w_url w = db ∧ w_key w = key ∧ good_win w.
Proof.
  unfold node.tryAllDBFind.
  case_bool_decide as Hlen; [by intros ?%elem_of_nil|].
  destruct (race_inv_run key (elems (dbs n)) (completed sc)) as [_ Hinv].
  destruct (data (race_of key sc n)) as [value|] eqn:Hdata; simpl;
    [destruct (timer_first sc); simpl|].
  - intros ->%list_elem_of_singleton. by left.
  - destruct (got _); [|congruence].
    destruct Hinv as (val & c & Hval & -> & _ & Hfind & Hgood).
    assert (val = value) as -> by congruence.
    destruct (_ || _); [|by intros ?%elem_of_nil].
    intros ->%list_elem_of_singleton. right.
    eexists. split_and!; [done..|].
    by eapply find_good.
  - intros ->%list_elem_of_singleton. by left.
Qed.

Lemma tryAllDBFind_elected key sc n w :
  elected (tryAllDBFind key sc n) = Some w → good_win w.
Proof.
  unfold node.tryAllDBFind.
  case_bool_decide as Hlen; [done|].
  destruct (race_inv_run key (elems (dbs n)) (completed sc)) as [_ Hinv].
  destruct (data (race_of key sc n)) as [value|] eqn:Hdata; simpl; [|done].
  destruct (timer_first sc); simpl; [done|].
  destruct (got _); [|congruence].
  destruct Hinv as (val & c & Hval & -> & _ & Hfind & Hgood).
  assert (val = value) as -> by congruence.
  intros [= <-]. by eapply find_good.
Qed.

(** [fetchData] runs the race or does not; in both cases what it starts
    and what it records are as for the race. *)
Lemma fetchData_cases get key sc n :
  (∃ e, elected (fetchData get key sc n) = None
        ∧ spawned (fetchData get key sc n) = []
        ∧ ret (fetchData get key sc n) = e)
  ∨ (elected (fetchData get key sc n) = elected (tryAllDBFind key sc n)
     ∧ (spawned (fetchData get key sc n) = spawned (tryAllDBFind key sc n)
        ∨ spawned (fetchData get key sc n)
          = "" :: spawned (tryAllDBFind key sc n))).
Proof.
  unfold node.fetchData. case_bool_decide; [right; auto|].
  destruct (find get key (fastDB n)) as [val [e|]]; [|left; eauto].
  destruct e; simpl; first [left; by eauto | right; by auto].
Qed.

Lemma fetchData_spawned get key sc n db :
  db ∈ spawned (fetchData get key sc n) →
  db = "" ∨ ∃ w,
      elected (fetchData get key sc n) = Some w
      ∧ w_url w = db ∧ good_win w.
Proof.
  destruct (fetchData_cases get key sc n)
    as [(e & _ & -> & _)|[-> [->| ->]]].
  - by intros ?%elem_of_nil.
  - intros [[-> _]|(w & ? & ? & _ & ?)]%tryAllDBFind_spawned; eauto.
  - intros [->|[[-> _]|(w & ? & ? & _ & ?)]%tryAllDBFind_spawned]%elem_of_cons;
      eauto.
Qed.

Lemma fetchData_elected get key sc n w :
  elected (fetchData get key sc n) = Some w → good_win w.
Proof.
  destruct (fetchData_cases get key sc n) as [(e & -> & _)|[-> _]]; [done|].
  apply tryAllDBFind_elected.
Qed.

(** ** The invariant of [fastDB] *)

Local Abbreviation names_winner := (names_winner MakeURL).
Local Abbreviation sys_inv := (sys_inv MakeURL).

Lemma names_winner_grow ws ws' db :
  names_winner ws db → names_winner (ws ++ ws') db.
Proof.
  intros [->|(w & Hin & Hurl & Hgood)]; [by left|right].
  exists w. split; [|done]. apply elem_of_app. by left.
Qed.

Lemma sys_inv_step s s' : step MakeURL s s' → sys_inv s → sys_inv s'.
Proof.
  intros Hstep [Hfast Hpend].
  destruct Hstep as [reply s|bind s|get key sc s o|i db s Hi].
  - split; [|done]. simpl. by destruct reply.
  - split; [|done]. simpl. unfold handleMeta.
    destruct bind as [params|msg]; [|done]. by destruct (_ && _).
  - subst o. split; simpl; [by apply names_winner_grow|].
    apply Forall_app. split.
    + eapply Forall_impl; [done|]. intros db. apply names_winner_grow.
    + apply Forall_forall. intros db Hdb.
      apply fetchData_spawned in Hdb as [->|(w & Hel & Hurl & Hgood)];
        [by left|right].
      exists w. split; [|done].
      apply elem_of_app. right. rewrite Hel. by apply list_elem_of_singleton.
  - split; simpl.
    + eapply Forall_lookup_1 in Hpend; done.
    + rewrite delete_take_drop. apply Forall_app.
      split; [by apply Forall_take|by apply Forall_drop].
Qed.

Lemma sys_inv_boot h na ma : sys_inv (boot h na ma).
Proof. split; [by left|by apply Forall_nil]. Qed.

Lemma sys_inv_reachable s0 s :
  sys_inv s0 → reachable MakeURL s0 s → sys_inv s.
Proof. induction 2; [done|]. by eapply sys_inv_step. Qed.

(** C3. A race starts [setFastDB] with the URL of its winner only when
    the winner answered with 200 and bytes or with 404, and otherwise
    only with the empty string after the deadline; so in every state
    the node reaches from [boot], a non-empty [fastDB] is the URL of a
    winner of an earlier race that answered in one of those two ways. *)
Theorem fastDB_names_prior_winner :
  (∀ key sc n db,
      db ∈ spawned (tryAllDBFind key sc n) →
      (db = "" ∧ ret (tryAllDBFind key sc n) = Some ErrDatabaseQueryTimeout)
      ∨ ∃ w,
          elected (tryAllDBFind key sc n) = Some w
          ∧ w_url w = db ∧ w_key w = key ∧ good_win w)
  ∧ (∀ h na ma s,
        reachable MakeURL (boot h na ma) s →
        fastDB (nd s) ≠ "" →
        ∃ w, w ∈ wins s ∧ w_url w = fastDB (nd s) ∧ good_win w).
Proof.
  split; [apply tryAllDBFind_spawned|].
  intros h na ma s Hreach Hne.
  destruct (sys_inv_reachable _ _ (sys_inv_boot h na ma) Hreach) as [[?|?] _];
    done.
Qed.

(** C4. When the deadline passes with no winner elected, the race
    returns [ErrDatabaseQueryTimeout] and starts exactly one
    [setFastDB], with the empty string; that call leaves [fastDB] empty;
    the handler answers that error with 500; and the loader returns what
    the race returns whenever it runs the race. *)
Theorem race_deadline_clears_fastDB get key sc n :
  elems (dbs n) ≠ [] →
  got (run_race MakeURL key (elems (dbs n)) (completed sc)) = false →
  ret (tryAllDBFind key sc n) = Some ErrDatabaseQueryTimeout
  ∧ spawned (tryAllDBFind key sc n) = [""]
  ∧ sink (tryAllDBFind key sc n) = None
  ∧ fastDB (setFastDB "" n) = ""
  ∧ status (handleGetKey ([], ret (tryAllDBFind key sc n)))
    = StatusInternalServerError
  ∧ (fastDB n = "" → fetchData get key sc n = tryAllDBFind key sc n)
  ∧ (∀ e, fastDB n ≠ "" →
          (find get key (fastDB n)).2 = Some e → e ≠ ErrDataNotFound →
          ret (fetchData get key sc n) = Some ErrDatabaseQueryTimeout
          ∧ spawned (fetchData get key sc n) = [""; ""]).
Proof.
  intros Hdbs Hgot.
  assert (tryAllDBFind key sc n
          = mkOutcome (Some ErrDatabaseQueryTimeout) None [""]
              ((λ url, dbGetURL (MakeURL url) key) <$> elems (dbs n)) None) as Hrace.
  { unfold node.tryAllDBFind.
    rewrite bool_decide_eq_false_2 by (by destruct (elems (dbs n))).
    by rewrite race_no_winner. }
  rewrite Hrace. simpl. split_and!; try done.
  - unfold node.fetchData. intros ->. by rewrite bool_decide_eq_true_2.
  - intros e Hfast Hfind Hne. unfold node.fetchData.
    rewrite bool_decide_eq_false_2 by done.
    destruct (find get key (fastDB n)) as [val err]. simpl in Hfind. subst err.
    rewrite Hrace. by destruct e.
Qed.

(** C5. With [fastDB] set, a 404 from it makes the loader return
    [ErrDataNotFound] after that single request and start no
    [setFastDB]; a transport error or a status other than 200 and 404
    makes the loader start [setFastDB] with the empty string, which
    clears [fastDB], and go on with the race over all databases. *)
Theorem fast_path_not_found_and_failure get key sc n :
  fastDB n ≠ "" →
  (∀ Body,
      get (dbGetURL (MakeURL (fastDB n)) key) = GetResp StatusNotFound Body →
      fetchData get key sc n
      = mkOutcome (Some ErrDataNotFound) None []
          [dbGetURL (MakeURL (fastDB n)) key] None)
  ∧ (∀ msg code Body,
        get (dbGetURL (MakeURL (fastDB n)) key) = GetErr msg
        ∨ (get (dbGetURL (MakeURL (fastDB n)) key) = GetResp code Body
           ∧ code ≠ StatusOK ∧ code ≠ StatusNotFound) →
        fetchData get key sc n
        = mkOutcome (ret (tryAllDBFind key sc n))
            (sink (tryAllDBFind key sc n))
            ("" :: spawned (tryAllDBFind key sc n))
            (dbGetURL (MakeURL (fastDB n)) key
               :: requests (tryAllDBFind key sc n))
            (elected (tryAllDBFind key sc n))
        ∧ fastDB (setFastDB "" n) = "").
Proof.
  intros Hfast. split.
  - intros Body Hget. unfold node.fetchData.
    rewrite bool_decide_eq_false_2 by done.
    by rewrite (find_not_found _ _ _ _ Hget).
  - intros msg code Body Hget. split; [|done]. unfold node.fetchData.
    rewrite bool_decide_eq_false_2 by done.
    destruct Hget as [Hget|(Hget & Hok & Hnf)].
    + by rewrite (find_transport_error _ _ _ _ Hget).
    + by rewrite (find_other_status _ _ _ _ _ Hget Hok Hnf).
Qed.

End node_spec.

(** * Properties of the handlers of the node *)
Section handler_spec.
Import node.

Lemma string_le_total : Total string_le.
Proof. intros a b. apply String.leb_total. Qed.

Lemma Sort_sorted s : Sorted string_le (elems (Sort s)).
Proof.
  destruct s as [l|]; simpl; [|constructor].
  apply Sorted_merge_sort, string_le_total.
Qed.

Lemma handleMeta_same params n :
  peers n = Sort (Peers params) → dbs n = Sort (DBs params) →
  handleMeta (Ok params) n = (n, ctx_JSON StatusOK JSONNil).
Proof.
  intros Hp Hd. unfold handleMeta.
  by rewrite !bool_decide_eq_true_2.
Qed.

Lemma handleMeta_changed params n :
  ¬ (peers n = Sort (Peers params) ∧ dbs n = Sort (DBs params)) →
  handleMeta (Ok params) n
  = (set_meta (Sort (Peers params)) (Sort (DBs params)) n,
     ctx_JSON StatusOK JSONNil).
Proof.
  intros Hne. unfold handleMeta.
  destruct (bool_decide (peers n = _)) eqn:Hp;
    destruct (bool_decide (dbs n = _)) eqn:Hd; try done.
  apply bool_decide_eq_true in Hp, Hd. by destruct Hne.
Qed.

(** C7. [handleMeta] sorts the two lists of the body.  When both equal
    the lists of the node it answers 200 and returns the node as it is;
    otherwise it answers 200 and replaces [peers] and [dbs] together and
    gives the new peers to the pool.  Either way the node then holds the
    two sorted lists, so the same body handled again changes nothing. *)
Theorem handleMeta_idempotent params n :
  (peers n = Sort (Peers params) ∧ dbs n = Sort (DBs params) →
   handleMeta (Ok params) n = (n, ctx_JSON StatusOK JSONNil))
  ∧ (¬ (peers n = Sort (Peers params) ∧ dbs n = Sort (DBs params)) →
     handleMeta (Ok params) n
     = (mkNode (Sort (DBs params)) (fastDB n) (Sort (Peers params))
          (masterAddr n) (httpAddr n) (nodeAddr n)
          (elems (Sort (Peers params))),
        ctx_JSON StatusOK JSONNil))
  ∧ peers (handleMeta (Ok params) n).1 = Sort (Peers params)
  ∧ dbs (handleMeta (Ok params) n).1 = Sort (DBs params)
  ∧ Sorted string_le (elems (peers (handleMeta (Ok params) n).1))
  ∧ Sorted string_le (elems (dbs (handleMeta (Ok params) n).1))
  ∧ handleMeta (Ok params) (handleMeta (Ok params) n).1
    = ((handleMeta (Ok params) n).1, ctx_JSON StatusOK JSONNil).
Proof.
  assert (peers (handleMeta (Ok params) n).1 = Sort (Peers params)
          ∧ dbs (handleMeta (Ok params) n).1 = Sort (DBs params)) as [Hp Hd].
  { destruct (decide (peers n = Sort (Peers params) ∧ dbs n = Sort (DBs params)))
      as [[Hp Hd]|Hne].
    - by rewrite handleMeta_same.
    - by rewrite handleMeta_changed. }
  split_and!; try done.
  - intros [? ?]. by apply handleMeta_same.
  - apply handleMeta_changed.
  - rewrite Hp. apply Sort_sorted.
  - rewrite Hd. apply Sort_sorted.
  - by apply handleMeta_same.
Qed.

(** C8. [handleGetKey] answers 200 with the bytes as they are and the
    content type [application/json; charset=utf-8] when the cache engine
    returns no error, 404 when it returns [ErrDataNotFound], and 500 for
    every other error. *)
Theorem handleGetKey_status val e :
  handleGetKey (val, None)
  = mkResponse 200 "application/json; charset=utf-8" (Raw val)
  ∧ status (handleGetKey (val, Some ErrDataNotFound)) = 404
  ∧ (e ≠ ErrDataNotFound → status (handleGetKey (val, Some e)) = 500).
Proof.
  split_and!; [done|done|]. intros Hne. by destruct e.
Qed.

End handler_spec.

(** ** The node on concrete databases *)

(** The node of the examples latches on [db_b]. *)
Lemma latched_reachable :
  node.reachable standin.MakeURL standin.booted standin.latched.
Proof.
  eapply node.reach_step; [eapply node.reach_step; [eapply node.reach_step|]|].
  - apply node.reach_boot.
  - apply (node.step_join standin.MakeURL (Ok standin.told) standin.booted).
  - apply (node.step_fetch standin.MakeURL standin.unreachable "x"
             standin.b_first standin.member).
  - apply (node.step_setFastDB standin.MakeURL 0%nat standin.db_b standin.raced).
    vm_compute. reflexivity.
Qed.

Lemma fastDB_names_prior_winner_witness :
  ∃ w,
    w ∈ node.wins standin.latched
    ∧ node.w_url w = node.fastDB (node.nd standin.latched)
    ∧ node.good_win standin.MakeURL w.
Proof.
  apply (proj2 (fastDB_names_prior_winner standin.MakeURL)
           "http://10.0.0.1:5551" "http://10.0.0.1:5552" ":5550" standin.latched).
  - apply latched_reachable.
  - vm_compute. discriminate.
Defined.

(** C2, as the code has it.  A goroutine that comes back with bytes wins
    the race, but when both databases fail before the deadline, every
    goroutine has completed and none is elected: the shared variables are
    as at the start and [tryAllDBFind] returns the timeout error. *)
Theorem race_all_errors_times_out :
  node.got (node.run_race standin.MakeURL "x" [standin.db_a; standin.db_b]
              (node.completed standin.b_first)) = true
  ∧ node.run_race standin.MakeURL "x" [standin.db_a; standin.db_b]
      (node.completed standin.both_fail) = node.race_start
  ∧ node.tryAllDBFind standin.MakeURL "x" standin.both_fail
      (node.nd standin.member)
    = node.mkOutcome (Some node.ErrDatabaseQueryTimeout) None [""]
        ["http://10.0.1.1:5560/i/key/x"; "http://10.0.1.2:5560/i/key/x"] None.
Proof. split_and!; vm_compute; reflexivity. Qed.

Lemma race_deadline_clears_fastDB_witness :
  node.ret (node.tryAllDBFind standin.MakeURL "x" standin.both_fail
              (node.nd standin.member)) = Some node.ErrDatabaseQueryTimeout
  ∧ node.spawned (node.tryAllDBFind standin.MakeURL "x" standin.both_fail
                    (node.nd standin.member)) = [""].
Proof.
  destruct (race_deadline_clears_fastDB standin.MakeURL standin.unreachable "x"
              standin.both_fail (node.nd standin.member))
    as (Hret & Hsp & _).
  - vm_compute. discriminate.
  - vm_compute. reflexivity.
  - split; [exact Hret|exact Hsp].
Defined.

Lemma fast_path_not_found_and_failure_witness :
  node.fetchData standin.MakeURL standin.lacks "y" standin.b_first
    (node.nd standin.latched)
  = node.mkOutcome (Some node.ErrDataNotFound) None []
      ["http://10.0.1.2:5560/i/key/y"] None.
Proof.
  apply (proj1 (fast_path_not_found_and_failure standin.MakeURL standin.lacks "y"
                  standin.b_first (node.nd standin.latched)
                  ltac:(vm_compute; discriminate))
           (Ok [])).
  vm_compute. reflexivity.
Defined.

Lemma handleMeta_idempotent_witness :
  node.handleMeta (Ok standin.told) (node.nd standin.latched)
  = (node.nd standin.latched, node.ctx_JSON StatusOK node.JSONNil).
Proof.
  apply (proj1 (handleMeta_idempotent standin.told (node.nd standin.latched))).
  vm_compute. split; reflexivity.
Defined.

Lemma handleGetKey_status_witness :
  node.status (node.handleGetKey ([], Some node.ErrDatabaseQueryTimeout)) = 500.
Proof.
  apply (proj2 (proj2 (handleGetKey_status [] node.ErrDatabaseQueryTimeout))).
  discriminate.
Defined.

(** * Further properties: the order of addresses *)

Lemma string_le_iff a b : string_le a b ↔ a = b ∨ OrderedTypeEx.String_as_OT.lt a b.
Proof.
  unfold string_le, String.leb.
  destruct (String.compare a b) eqn:Hcmp.
  - apply String.compare_eq_iff in Hcmp. naive_solver.
  - apply OrderedTypeEx.String_as_OT.cmp_lt in Hcmp. naive_solver.
  - split; [done|]. intros [->|Hlt].
    + assert (String.compare b b = Eq) as Hbb
        by by apply OrderedTypeEx.String_as_OT.cmp_eq.
      congruence.
    + apply OrderedTypeEx.String_as_OT.cmp_lt in Hlt.
      unfold OrderedTypeEx.String_as_OT.cmp in Hlt. congruence.
Qed.

Lemma string_le_trans : Transitive string_le.
Proof.
  intros a b c [->|Hab]%string_le_iff [->|Hbc]%string_le_iff;
    apply string_le_iff; auto.
  right. by eapply OrderedTypeEx.String_as_OT.lt_trans.
Qed.

Lemma string_le_antisym : AntiSymm (=) string_le.
Proof. intros a b. apply String.leb_antisym. Qed.

Lemma sort_strings_sorted l : Sorted string_le (sort_strings l).
Proof. apply Sorted_merge_sort, string_le_total. Qed.

Lemma sort_strings_perm l : sort_strings l ≡ₚ l.
Proof. apply merge_sort_Permutation. Qed.

(** The sorted list does not depend on how its input was ordered. *)
Lemma sort_strings_unique l l' :
  Sorted string_le l' → l' ≡ₚ l → sort_strings l = l'.
Proof.
  intros Hs Hp.
  apply (@Sorted_unique _ string_le string_le_trans string_le_antisym);
    [apply sort_strings_sorted|done|].
  by rewrite sort_strings_perm.
Qed.

Lemma sort_strings_proper l l' : l ≡ₚ l' → sort_strings l = sort_strings l'.
Proof.
  intros Hp. apply sort_strings_unique; [apply sort_strings_sorted|].
  by rewrite sort_strings_perm.
Qed.

Lemma sort_strings_id l : Sorted string_le l → sort_strings l = l.
Proof. intros Hs. by apply sort_strings_unique. Qed.

Lemma Sort_idemp s : Sort (Sort s) = Sort s.
Proof.
  destruct s as [l|]; [|done]. simpl. f_equal.
  apply sort_strings_id, sort_strings_sorted.
Qed.

Lemma elem_of_sort_strings a l : a ∈ sort_strings l ↔ a ∈ l.
Proof. by rewrite sort_strings_perm. Qed.

Lemma httpAddrs_spec_facts (p : gmap string string) :
  Sorted string_le (master.httpAddrs p)
  ∧ NoDup (master.httpAddrs p)
  ∧ (∀ a, a ∈ master.httpAddrs p ↔ is_Some (p !! a))
  ∧ length (master.httpAddrs p) = size p.
Proof.
  unfold master.httpAddrs. split_and!.
  - apply sort_strings_sorted.
  - rewrite sort_strings_perm. apply NoDup_fst_map_to_list.
  - intros a. rewrite elem_of_sort_strings, list_elem_of_fmap. split.
    + intros ([k v] & -> & Hin). apply elem_of_map_to_list in Hin. by eexists.
    + intros [v Hv]. exists (a, v). split; [done|]. by apply elem_of_map_to_list.
  - rewrite sort_strings_perm, length_fmap. apply length_map_to_list.
Qed.

(** X1. [httpAddrs] lists exactly the keys of the roster, each once, in
    ascending order. *)
Theorem httpAddrs_spec (p : gmap string string) :
  Sorted string_le (master.httpAddrs p)
  ∧ NoDup (master.httpAddrs p)
  ∧ (∀ a, a ∈ master.httpAddrs p ↔ is_Some (p !! a))
  ∧ length (master.httpAddrs p) = size p.
Proof. apply httpAddrs_spec_facts. Qed.

(** X2. [nodeAddrs] lists the values of the roster in ascending order,
    one per entry: an address that two nodes share is listed twice. *)
Theorem nodeAddrs_spec (p : gmap string string) :
  Sorted string_le (master.nodeAddrs p)
  ∧ (∀ a, a ∈ master.nodeAddrs p ↔ ∃ k, p !! k = Some a)
  ∧ length (master.nodeAddrs p) = size p
  ∧ (∀ k k' a, k ≠ k' → p !! k = Some a → p !! k' = Some a →
               ¬ NoDup (master.nodeAddrs p)).
Proof.
  unfold master.nodeAddrs. split_and!.
  - apply sort_strings_sorted.
  - intros a. rewrite elem_of_sort_strings, list_elem_of_fmap. split.
    + intros ([k v] & -> & Hin). apply elem_of_map_to_list in Hin. by exists k.
    + intros [k Hk]. exists (k, a). split; [done|]. by apply elem_of_map_to_list.
  - rewrite sort_strings_perm, length_fmap. apply length_map_to_list.
  - intros k k' a Hne Hk Hk'. rewrite sort_strings_perm. intros Hnd.
    apply elem_of_map_to_list in Hk, Hk'.
    apply list_elem_of_lookup in Hk as [i Hi], Hk' as [j Hj].
    assert (i = j) as ->.
    { eapply (NoDup_lookup _ i j a); [done|by rewrite list_lookup_fmap, ?Hi, ?Hj..]. }
    congruence.
Qed.

(** X3. Go ranges over a map in no fixed order.  For whatever order the
    entries of the roster are enumerated in, sorting the keys gives
    [httpAddrs] and sorting the values gives [nodeAddrs]. *)
Theorem addrs_any_iteration_order (p : gmap string string) kvs :
  kvs ≡ₚ map_to_list p →
  sort_strings kvs.*1 = master.httpAddrs p
  ∧ sort_strings kvs.*2 = master.nodeAddrs p.
Proof.
  intros Hp. unfold master.httpAddrs, master.nodeAddrs.
  split; apply sort_strings_proper; by rewrite Hp.
Qed.

Lemma addrs_any_iteration_order_witness :
  sort_strings ["http://10.0.0.2:5551"; "http://10.0.0.1:5551"]
  = master.httpAddrs (master.nodesMap standin.both)
  ∧ sort_strings ["http://10.0.0.2:5552"; "http://10.0.0.1:5552"]
    = master.nodeAddrs (master.nodesMap standin.both).
Proof.
  apply (addrs_any_iteration_order (master.nodesMap standin.both)
           [("http://10.0.0.2:5551", "http://10.0.0.2:5552");
            ("http://10.0.0.1:5551", "http://10.0.0.1:5552")]).
  vm_compute map_to_list. apply Permutation_swap.
Defined.

Lemma httpAddrs_spec_witness :
  "http://10.0.0.2:5551" ∈ master.httpAddrs (master.nodesMap standin.both).
Proof.
  apply (proj1 (proj2 (proj2 (httpAddrs_spec (master.nodesMap standin.both))))).
  vm_compute. eexists. reflexivity.
Defined.

Lemma nodeAddrs_spec_witness :
  ¬ NoDup (master.nodeAddrs
             (<["http://10.0.0.1:5551" := "http://10.0.0.1:5552"]>
                (<["http://10.0.0.3:5551" := "http://10.0.0.1:5552"]> ∅))).
Proof.
  apply (proj2 (proj2 (proj2 (nodeAddrs_spec _)))
           "http://10.0.0.1:5551" "http://10.0.0.3:5551" "http://10.0.0.1:5552").
  - discriminate.
  - vm_compute. reflexivity.
  - vm_compute. reflexivity.
Defined.

(** * Further properties of the master *)
Section master_more.
Local Abbreviation peers_of := (Peers).
Import master.
Context {M : Type} `{!Meta M}.
Variable MakeURL : string → string.
Variable json_Marshal_nodesMap : gmap string string → result error string.
Variable json_Unmarshal_nodesMap : string → result error (gmap string string).
Variable json_Marshal_PeerParam : PeerParam → result error string.

Local Abbreviation updateNodesMap := (updateNodesMap json_Marshal_nodesMap).
Local Abbreviation JoinNode := (JoinNode MakeURL json_Marshal_nodesMap).
Local Abbreviation joined := (joined MakeURL).
Local Abbreviation removeNode := (removeNode json_Marshal_nodesMap).
Local Abbreviation fetchNodesMap := (fetchNodesMap json_Unmarshal_nodesMap).
Local Abbreviation New := (New json_Unmarshal_nodesMap).
Local Abbreviation Peers := (master.Peers json_Unmarshal_nodesMap).
Local Abbreviation sendPeers := (sendPeers MakeURL json_Marshal_PeerParam).
Local Abbreviation acks := (acks MakeURL json_Marshal_PeerParam).
Local Abbreviation heartbeat_node :=
  (heartbeat_node MakeURL json_Marshal_nodesMap json_Marshal_PeerParam).
Local Abbreviation heartbeat_tick :=
  (heartbeat_tick MakeURL json_Marshal_nodesMap json_Marshal_PeerParam).

Lemma updateNodesMap_fields peers (m : Master M) :
  nodesMap (updateNodesMap peers m).1 = nodesMap m
  ∧ dbs (updateNodesMap peers m).1 = dbs m
  ∧ addr (updateNodesMap peers m).1 = addr m
  ∧ nodesMapKey (updateNodesMap peers m).1 = nodesMapKey m.
Proof.
  unfold master.updateNodesMap.
  destruct (json_Marshal_nodesMap peers); [|done].
  by destruct (meta_Put _ _ _).
Qed.

Lemma JoinNode_fields a (m : Master M) :
  HTTPAddr a ≠ "" → NodeAddr a ≠ "" →
  nodesMap (JoinNode (Some a) m).1
  = <[MakeURL (HTTPAddr a) := MakeURL (NodeAddr a)]> (nodesMap m)
  ∧ dbs (JoinNode (Some a) m).1 = dbs m
  ∧ addr (JoinNode (Some a) m).1 = addr m
  ∧ nodesMapKey (JoinNode (Some a) m).1 = nodesMapKey m.
Proof.
  intros Hh Hn. rewrite JoinNode_valid by done.
  destruct (updateNodesMap_fields (nodesMap (joined a m)) (joined a m))
    as (H1 & H2 & H3 & H4).
  destruct (updateNodesMap _ _) as [m' [e|]]; simpl in *;
    by rewrite H1, H2, H3, H4.
Qed.

Lemma JoinNode_wrong_params_facts args (m : Master M) :
  match args with
  | None => True
  | Some a => HTTPAddr a = "" ∨ NodeAddr a = ""
  end →
  JoinNode args m = (m, Err ErrWrongParams).
Proof.
  destruct args as [a|]; [|done]. unfold master.JoinNode.
  intros [-> | ->]; [done|]. by rewrite orb_true_r.
Qed.

(** X4. [JoinNode] with no argument, or with an empty http or node
    address, returns the wrong-params error and leaves the master, store
    included, as it was. *)
Theorem JoinNode_wrong_params args (m : Master M) :
  match args with
  | None => True
  | Some a => HTTPAddr a = "" ∨ NodeAddr a = ""
  end →
  JoinNode args m = (m, Err ErrWrongParams).
Proof. apply JoinNode_wrong_params_facts. Qed.

Lemma JoinNode_reply_facts args (m m' : Master M) reply :
  JoinNode args m = (m', Ok reply) →
  ∃ a,
    args = Some a
    ∧ peers_of reply
      = Some (httpAddrs (<[MakeURL (HTTPAddr a) := MakeURL (NodeAddr a)]> (nodesMap m)))
    ∧ MakeURL (HTTPAddr a) ∈ elems (peers_of reply)
    ∧ (∀ k, is_Some (nodesMap m !! k) → k ∈ elems (peers_of reply))
    ∧ Sorted string_le (elems (peers_of reply))
    ∧ DBs reply = dbs m.
Proof.
  intros HJ.
  destruct (JoinNode_Ok_inv _ _ _ _ _ _ HJ) as (a & -> & Hh & Hn & Hup).
  destruct (updateNodesMap_frame _ _ _ _ _ Hup) as (Hnm & Hdbs & _).
  rewrite JoinNode_valid, Hup in HJ by done. injection HJ as <-.
  exists a. simpl. rewrite Hnm, Hdbs. simpl.
  destruct (httpAddrs_spec_facts (<[MakeURL (HTTPAddr a) := MakeURL (NodeAddr a)]> (nodesMap m)))
    as (Hs & _ & Hin & _).
  split_and!; try done.
  - apply Hin. rewrite lookup_insert_eq. by eexists.
  - intros k Hk. apply Hin. rewrite lookup_insert.
    by case_decide.
Qed.

(** X5. The reply of a successful [JoinNode] lists the http addresses of
    the roster after the insertion, in ascending order: the address of the
    joining node and every address that was there before; its database
    list is the one the master held. *)
Theorem JoinNode_reply args (m m' : Master M) reply :
  JoinNode args m = (m', Ok reply) →
  ∃ a,
    args = Some a
    ∧ peers_of reply
      = Some (httpAddrs (<[MakeURL (HTTPAddr a) := MakeURL (NodeAddr a)]> (nodesMap m)))
    ∧ MakeURL (HTTPAddr a) ∈ elems (peers_of reply)
    ∧ (∀ k, is_Some (nodesMap m !! k) → k ∈ elems (peers_of reply))
    ∧ Sorted string_le (elems (peers_of reply))
    ∧ DBs reply = dbs m.
Proof. apply JoinNode_reply_facts. Qed.

(** X6. Joining again with the same addresses does not change the roster:
    no entry is added, and a second success replies as the first did. *)
Theorem JoinNode_twice a (m : Master M) :
  HTTPAddr a ≠ "" → NodeAddr a ≠ "" →
  nodesMap (JoinNode (Some a) (JoinNode (Some a) m).1).1
  = nodesMap (JoinNode (Some a) m).1
  ∧ size (nodesMap (JoinNode (Some a) (JoinNode (Some a) m).1).1)
    = size (nodesMap (JoinNode (Some a) m).1)
  ∧ ∀ r1 r2,
      (JoinNode (Some a) m).2 = Ok r1 →
      (JoinNode (Some a) (JoinNode (Some a) m).1).2 = Ok r2 →
      r2 = r1.
Proof.
  intros Hh Hn.
  destruct (JoinNode_fields a m Hh Hn) as (Hnm & Hdbs & _).
  destruct (JoinNode_fields a (JoinNode (Some a) m).1 Hh Hn) as (Hnm2 & Hdbs2 & _).
  assert (nodesMap (JoinNode (Some a) (JoinNode (Some a) m).1).1
          = nodesMap (JoinNode (Some a) m).1) as Heq.
  { rewrite Hnm2, Hnm. apply insert_insert_eq. }
  split_and!; [done|by rewrite Heq|].
  intros r1 r2 H1 H2.
  destruct (JoinNode (Some a) m) as [m1 o1] eqn:HJ1. cbn [fst snd] in *. subst o1.
  destruct (JoinNode (Some a) m1) as [m2 o2] eqn:HJ2. cbn [fst snd] in *. subst o2.
  destruct (JoinNode_reply_facts _ _ _ _ HJ1) as (a1 & [= <-] & Hp1 & _ & _ & _ & Hd1).
  destruct (JoinNode_reply_facts _ _ _ _ HJ2) as (a2 & [= <-] & Hp2 & _ & _ & _ & Hd2).
  destruct r1 as [p1 d1], r2 as [p2 d2]. simpl in *.
  rewrite Hp1, Hp2, Hd1, Hd2, Hnm, Hdbs. f_equal.
  by rewrite insert_insert_eq.
Qed.

(** X7. Whatever [JoinNode] returns, the entries of the other nodes, the
    database list, the address and the roster key of the master are as
    before. *)
Theorem JoinNode_frame args (m : Master M) k :
  (∀ a, args = Some a → k ≠ MakeURL (HTTPAddr a)) →
  nodesMap (JoinNode args m).1 !! k = nodesMap m !! k
  ∧ dbs (JoinNode args m).1 = dbs m
  ∧ addr (JoinNode args m).1 = addr m
  ∧ nodesMapKey (JoinNode args m).1 = nodesMapKey m.
Proof.
  intros Hk. destruct args as [a|]; [|done].
  destruct (decide (HTTPAddr a = "")) as [Hh|Hh];
    [by rewrite JoinNode_wrong_params_facts by auto|].
  destruct (decide (NodeAddr a = "")) as [Hn|Hn];
    [by rewrite JoinNode_wrong_params_facts by auto|].
  destruct (JoinNode_fields a m Hh Hn) as (-> & -> & -> & ->).
  split_and!; try done. apply lookup_insert_ne. by apply not_eq_sym, Hk.
Qed.

(** X8. [removeNode] of a node that is in the roster deletes its entry
    and no other, and writes the encoded roster without it to the store;
    the entry stays deleted in memory also when that write fails. *)
Theorem removeNode_present_spec node peer (m : Master M) :
  nodesMap m !! node = Some peer →
  nodesMap (removeNode node m) = delete node (nodesMap m)
  ∧ nodesMap (removeNode node m) !! node = None
  ∧ (∀ k, k ≠ node → nodesMap (removeNode node m) !! k = nodesMap m !! k)
  ∧ dbs (removeNode node m) = dbs m
  ∧ (∀ b, json_Marshal_nodesMap (delete node (nodesMap m)) = Ok b →
          meta (removeNode node m) = (meta_Put (meta m) (nodesMapKey m) b).1)
  ∧ (∀ e, json_Marshal_nodesMap (delete node (nodesMap m)) = Err e →
          meta (removeNode node m) = meta m).
Proof.
  intros Hsome.
  pose proof (removeNode_present json_Marshal_nodesMap node peer m Hsome) as Hnm.
  split_and!.
  - done.
  - rewrite Hnm. apply lookup_delete_eq.
  - intros k Hk. rewrite Hnm. by apply lookup_delete_ne.
  - unfold master.removeNode. rewrite Hsome.
    destruct (updateNodesMap_fields (delete node (nodesMap m))
                (set_nodesMap (delete node (nodesMap m)) m)) as (_ & Hd & _).
    exact Hd.
  - intros b Hb. unfold master.removeNode, master.updateNodesMap.
    rewrite Hsome. simpl. rewrite Hb. by destruct (meta_Put _ _ _).
  - intros e He. unfold master.removeNode, master.updateNodesMap.
    rewrite Hsome. simpl. by rewrite He.
Qed.

(** X9. Removing a node right after it joined gives back the roster from
    before the join, when its http address was not in use. *)
Theorem JoinNode_then_removeNode a (m : Master M) :
  HTTPAddr a ≠ "" → NodeAddr a ≠ "" →
  nodesMap m !! MakeURL (HTTPAddr a) = None →
  nodesMap (removeNode (MakeURL (HTTPAddr a)) (JoinNode (Some a) m).1)
  = nodesMap m.
Proof.
  intros Hh Hn Hfree.
  destruct (JoinNode_fields a m Hh Hn) as (Hnm & _).
  rewrite (removeNode_present json_Marshal_nodesMap _ (MakeURL (NodeAddr a))).
  - rewrite Hnm. by apply delete_insert_id.
  - rewrite Hnm. apply lookup_insert_eq.
Qed.

(** X10. After a successful [JoinNode], on a store that gives back what
    was put and with a decoder that reads the encoded roster back, the
    persisted roster is the roster in memory: [fetchNodesMap] and [Peers]
    read it, and a master started anew on that store holds the joining
    node. *)
Theorem roster_survives_restart args (m m' : Master M) reply addr' :
  JoinNode args m = (m', Ok reply) →
  (∀ s k v s', meta_Put s k v = (s', None) → meta_Get s' k = Ok v) →
  (∀ b, json_Marshal_nodesMap (nodesMap m') = Ok b →
        json_Unmarshal_nodesMap b = Ok (nodesMap m')) →
  fetchNodesMap m' = (nodesMap m', None)
  ∧ Peers m' = (Some (httpAddrs (nodesMap m')), None)
  ∧ New addr' (nodesMapKey m) (meta m')
    = Ok (mkMaster (nodesMap m') None addr' (meta m') (nodesMapKey m))
  ∧ ∃ a, args = Some a
         ∧ nodesMap m' !! MakeURL (HTTPAddr a) = Some (MakeURL (NodeAddr a)).
Proof.
  intros HJ Hstore Hcodec.
  destruct (JoinNode_Ok_inv _ _ _ _ _ _ HJ) as (a & -> & _ & _ & Hup).
  destruct (updateNodesMap_frame _ _ _ _ _ Hup) as (Hnm & _ & Hkey).
  destruct (updateNodesMap_ok _ _ _ _ Hup) as (b & Hb & Hput).
  simpl in Hkey, Hput. rewrite <- Hnm in Hb.
  assert (nodesMap m' !! MakeURL (HTTPAddr a) = Some (MakeURL (NodeAddr a)))
    as Hin by (rewrite Hnm; apply lookup_insert_eq).
  assert (fetchNodesMap m' = (nodesMap m', None)) as Hfetch.
  { unfold master.fetchNodesMap.
    rewrite Hkey, (Hstore _ _ _ _ Hput). by rewrite (Hcodec _ Hb). }
  split_and!; [done| | |by eauto].
  - unfold master.Peers. by rewrite Hfetch.
  - unfold master.New, master.fetchNodesMap. simpl.
    rewrite (Hstore _ _ _ _ Hput). by rewrite (Hcodec _ Hb).
Qed.

(** X11. When the store has nothing under the roster key, the persisted
    roster reads as empty, without error and without decoding anything:
    [fetchNodesMap] returns the empty roster, [Peers] an empty list, and
    [New] a master with no node. *)
Theorem empty_roster_when_key_absent (m : Master M) addr' :
  meta_Get (meta m) (nodesMapKey m) = Err ConfigErrDataNotFound →
  fetchNodesMap m = (∅, None)
  ∧ Peers m = (Some [], None)
  ∧ New addr' (nodesMapKey m) (meta m)
    = Ok (mkMaster ∅ None addr' (meta m) (nodesMapKey m)).
Proof.
  intros Hget.
  assert (fetchNodesMap m = (∅, None)) as Hfetch
    by (unfold master.fetchNodesMap; by rewrite Hget).
  split_and!; [done| |].
  - unfold master.Peers. by rewrite Hfetch.
  - unfold master.New, master.fetchNodesMap. simpl. by rewrite Hget.
Qed.

Lemma sendPeers_spec_facts peers post node nodes (m : Master M) :
  ((sendPeers peers post node nodes m).2 = None
   ↔ acks peers post node nodes = true)
  ∧ nodesMap (sendPeers peers post node nodes m).1 = nodesMap m
  ∧ meta (sendPeers peers post node nodes m).1 = meta m
  ∧ dbs (sendPeers peers post node nodes m).1
    = match peers with Ok d => d | Err _ => dbs m end
  ∧ (∀ d b code,
        peers = Ok d →
        json_Marshal_PeerParam (mkPeerParam (Some nodes) d) = Ok b →
        post (heartbeatURL (MakeURL node)) jsonHTTPHeader b = PostResp code →
        code ≠ StatusOK →
        (sendPeers peers post node nodes m).2 = Some ErrFailedToSendPeers).
Proof.
  unfold master.sendPeers, master.acks, master.syncDBs.
  destruct peers as [d|e]; simpl;
    [|solve [split_and!; try done; intros; simplify_eq; congruence]].
  destruct (json_Marshal_PeerParam _) as [b|e] eqn:Hb; simpl;
    [|solve [split_and!; try done; intros; simplify_eq; congruence]].
  destruct (post _ _ _) as [msg|code] eqn:Hpost; simpl;
    [solve [split_and!; try done; intros; simplify_eq; congruence]|].
  case_bool_decide as Hcode; simpl.
  - rewrite bool_decide_eq_false_2 by done.
    solve [split_and!; try done; intros; simplify_eq; congruence].
  - subst code. rewrite bool_decide_eq_true_2 by done.
    solve [split_and!; try done; intros; simplify_eq; congruence].
Qed.

(** X12. [sendPeers] succeeds exactly when the database list was
    refreshed, the body encoded and the POST answered with 200; a POST
    answered with another status gives the failed-to-send error.  It
    never touches the roster or the store, and it installs the refreshed
    database list whenever the refresh succeeded, also when the POST then
    fails. *)
Theorem sendPeers_spec peers post node nodes (m : Master M) :
  ((sendPeers peers post node nodes m).2 = None
   ↔ acks peers post node nodes = true)
  ∧ nodesMap (sendPeers peers post node nodes m).1 = nodesMap m
  ∧ meta (sendPeers peers post node nodes m).1 = meta m
  ∧ dbs (sendPeers peers post node nodes m).1
    = match peers with Ok d => d | Err _ => dbs m end
  ∧ (∀ d b code,
        peers = Ok d →
        json_Marshal_PeerParam (mkPeerParam (Some nodes) d) = Ok b →
        post (heartbeatURL (MakeURL node)) jsonHTTPHeader b = PostResp code →
        code ≠ StatusOK →
        (sendPeers peers post node nodes m).2 = Some ErrFailedToSendPeers).
Proof. apply sendPeers_spec_facts. Qed.

Lemma heartbeat_node_spec_facts peers post nodePeers node (m : Master M) :
  nodesMap (heartbeat_node peers post nodePeers node m)
  = if acks peers post node nodePeers then nodesMap m
    else delete node (nodesMap m).
Proof.
  unfold master.heartbeat_node.
  destruct (sendPeers_spec_facts peers post node nodePeers m) as (Hiff & Hnm & _).
  destruct (sendPeers peers post node nodePeers m) as [m1 [e|]] eqn:Hsend;
    simpl in *.
  - destruct (acks peers post node nodePeers) eqn:Hacks.
    { discriminate (proj2 Hiff eq_refl). }
    destruct (nodesMap m1 !! node) as [peer|] eqn:Hlook.
    + rewrite (removeNode_present json_Marshal_nodesMap _ _ _ Hlook).
      by rewrite Hnm.
    + unfold master.removeNode. rewrite Hlook, Hnm.
      rewrite Hnm in Hlook. symmetry. by apply delete_id.
  - by rewrite (proj1 Hiff eq_refl).
Qed.

(** X13. The heartbeat goroutine of a node keeps the roster as it is when
    the node acknowledges, and deletes the entry of the node and no other
    when it does not. *)
Theorem heartbeat_node_spec peers post nodePeers node (m : Master M) :
  nodesMap (heartbeat_node peers post nodePeers node m)
  = if acks peers post node nodePeers then nodesMap m
    else delete node (nodesMap m).
Proof. apply heartbeat_node_spec_facts. Qed.

Lemma heartbeat_fold (world : string → result error slice * HTTPPoster)
    nodePeers l (m : Master M) k :
  nodesMap
    (foldl (λ m nodeURL,
              heartbeat_node (world nodeURL).1 (world nodeURL).2 nodePeers nodeURL m)
           m l) !! k
  = if decide (k ∈ l ∧ acks (world k).1 (world k).2 k nodePeers = false)
    then None else nodesMap m !! k.
Proof.
  revert m. induction l as [|x l IH]; intros m; simpl; [done|].
  rewrite IH, heartbeat_node_spec_facts.
  assert (k ≠ x →
          (if acks (world x).1 (world x).2 x nodePeers
           then nodesMap m else delete x (nodesMap m)) !! k
          = nodesMap m !! k) as Hother.
  { intros Hne. destruct (acks (world x).1 (world x).2 x nodePeers); [done|].
    by apply lookup_delete_ne. }
  destruct (acks (world k).1 (world k).2 k nodePeers) eqn:Hacks.
  - rewrite (decide_False (P := k ∈ l ∧ _)) by (by intros [_ ?]).
    rewrite (decide_False (P := k ∈ x :: l ∧ _)) by (by intros [_ ?]).
    destruct (decide (k = x)) as [->|Hne]; [by rewrite Hacks|by apply Hother].
  - destruct (decide (k ∈ l)) as [Hin|Hnin].
    + rewrite (decide_True (P := k ∈ l ∧ _)) by done.
      by rewrite (decide_True (P := k ∈ x :: l ∧ _)) by (split; [by right|done]).
    + rewrite (decide_False (P := k ∈ l ∧ _)) by (by intros [? _]).
      destruct (decide (k = x)) as [->|Hne].
      * rewrite Hacks, lookup_delete_eq.
        by rewrite decide_True by (split; [left|done]).
      * rewrite Hother by done. rewrite decide_False; [done|].
        intros [[?|?]%elem_of_cons _]; done.
Qed.

(** X14. After one heartbeat tick the roster holds exactly the entries of
    the nodes that acknowledged: every node that did not is removed, and
    no other entry is touched. *)
Theorem heartbeat_tick_spec (world : string → result error slice * HTTPPoster)
    (m : Master M) k :
  nodesMap (heartbeat_tick world m) !! k
  = if acks (world k).1 (world k).2 k (nodeAddrs (nodesMap m))
    then nodesMap m !! k else None.
Proof.
  unfold master.heartbeat_tick. rewrite heartbeat_fold.
  destruct (httpAddrs_spec_facts (nodesMap m)) as (_ & _ & Hin & _).
  destruct (acks _ _ _ _) eqn:Hacks.
  - by rewrite decide_False by (by intros [_ ?]).
  - case_decide as Hk; [done|].
    destruct (nodesMap m !! k) eqn:Hlook; [|done].
    exfalso. apply Hk. split; [|done]. apply Hin. by eexists.
Qed.

End master_more.

(** ** The further properties of the master on the in-memory store *)

Lemma MemMeta_put_get (s : standin.MemMeta) k v (s' : standin.MemMeta) :
  master.meta_Put s k v = (s', None) → master.meta_Get s' k = Ok v.
Proof.
  simpl. destruct (standin.mm_readonly s); [done|].
  intros [= <-]. simpl. by rewrite lookup_insert_eq.
Qed.

Lemma JoinNode_wrong_params_witness :
  standin.JoinNode (Some (master.mkJoinParam "" "http://10.0.0.1:5552"))
    standin.fresh
  = (standin.fresh, Err master.ErrWrongParams).
Proof.
  apply (JoinNode_wrong_params standin.MakeURL standin.Marshal_nodesMap
           (Some (master.mkJoinParam "" "http://10.0.0.1:5552")) standin.fresh).
  left. reflexivity.
Defined.

Lemma JoinNode_reply_witness :
  ∃ a, Some standin.n2 = Some a
       ∧ standin.MakeURL (master.HTTPAddr a)
         ∈ elems (Some ["http://10.0.0.1:5551"; "http://10.0.0.2:5551"]).
Proof.
  destruct (JoinNode_reply standin.MakeURL standin.Marshal_nodesMap
              (Some standin.n2) (standin.JoinNode (Some standin.n1) standin.fresh).1
              standin.both
              (mkPeerParam (Some ["http://10.0.0.1:5551"; "http://10.0.0.2:5551"])
                           None))
    as (a & Ha & _ & Hin & _).
  - vm_compute. reflexivity.
  - exists a. split; [exact Ha|exact Hin].
Defined.

Lemma JoinNode_twice_witness :
  master.nodesMap
    (standin.JoinNode (Some standin.n1)
       (standin.JoinNode (Some standin.n1) standin.fresh).1).1
  = master.nodesMap (standin.JoinNode (Some standin.n1) standin.fresh).1.
Proof.
  apply (JoinNode_twice standin.MakeURL standin.Marshal_nodesMap
           standin.n1 standin.fresh).
  - vm_compute. discriminate.
  - vm_compute. discriminate.
Defined.

Lemma JoinNode_frame_witness :
  master.nodesMap
    (standin.JoinNode (Some standin.n2)
       (standin.JoinNode (Some standin.n1) standin.fresh).1).1
    !! "http://10.0.0.1:5551"
  = master.nodesMap (standin.JoinNode (Some standin.n1) standin.fresh).1
    !! "http://10.0.0.1:5551".
Proof.
  apply (JoinNode_frame standin.MakeURL standin.Marshal_nodesMap
           (Some standin.n2)
           (standin.JoinNode (Some standin.n1) standin.fresh).1
           "http://10.0.0.1:5551").
  intros a [= <-]. vm_compute. discriminate.
Defined.

Lemma removeNode_present_spec_witness :
  master.nodesMap
    (master.removeNode standin.Marshal_nodesMap "http://10.0.0.1:5551" standin.both)
  = delete "http://10.0.0.1:5551" (master.nodesMap standin.both).
Proof.
  apply (removeNode_present_spec standin.Marshal_nodesMap
           "http://10.0.0.1:5551" "http://10.0.0.1:5552" standin.both).
  vm_compute. reflexivity.
Defined.

Lemma JoinNode_then_removeNode_witness :
  master.nodesMap
    (master.removeNode standin.Marshal_nodesMap
       (standin.MakeURL (master.HTTPAddr standin.n1))
       (standin.JoinNode (Some standin.n1) standin.fresh).1)
  = master.nodesMap standin.fresh.
Proof.
  apply (JoinNode_then_removeNode standin.MakeURL standin.Marshal_nodesMap
           standin.n1 standin.fresh).
  - vm_compute. discriminate.
  - vm_compute. discriminate.
  - vm_compute. reflexivity.
Defined.

Lemma roster_survives_restart_witness :
  master.fetchNodesMap standin.Unmarshal_nodesMap standin.both
  = (master.nodesMap standin.both, None)
  ∧ master.Peers standin.Unmarshal_nodesMap standin.both
    = (Some (master.httpAddrs (master.nodesMap standin.both)), None).
Proof.
  destruct (roster_survives_restart standin.MakeURL standin.Marshal_nodesMap
              standin.Unmarshal_nodesMap
              (Some standin.n2) (standin.JoinNode (Some standin.n1) standin.fresh).1
              standin.both
              (mkPeerParam (Some ["http://10.0.0.1:5551"; "http://10.0.0.2:5551"])
                           None)
              ":5550")
    as (Hfetch & Hpeers & _).
  - vm_compute. reflexivity.
  - apply MemMeta_put_get.
  - intros b Hb. vm_compute in Hb. injection Hb as <-. vm_compute. reflexivity.
  - split; [exact Hfetch|exact Hpeers].
Defined.

Lemma empty_roster_when_key_absent_witness :
  master.fetchNodesMap standin.Unmarshal_nodesMap standin.fresh = (∅, None).
Proof.
  apply (empty_roster_when_key_absent standin.Unmarshal_nodesMap standin.fresh ":5550").
  vm_compute. reflexivity.
Defined.

Lemma sendPeers_spec_witness :
  (master.sendPeers standin.MakeURL standin.Marshal_PeerParam
     (Ok None) (standin.post_always (master.PostResp 503))
     "http://10.0.0.1:5551" [] standin.both).2
  = Some master.ErrFailedToSendPeers.
Proof.
  eapply (proj2 (proj2 (proj2 (proj2
            (sendPeers_spec standin.MakeURL standin.Marshal_PeerParam
               (Ok None) (standin.post_always (master.PostResp 503))
               "http://10.0.0.1:5551" [] standin.both))))).
  - reflexivity.
  - vm_compute. reflexivity.
  - reflexivity.
  - vm_compute. discriminate.
Defined.

(** * Further properties of the node *)
Section node_more.
Import node.
Variable MakeURL : string → string.

Local Abbreviation find := (find MakeURL).
Local Abbreviation complete := (complete MakeURL).
Local Abbreviation run_race := (run_race MakeURL).
Local Abbreviation tryAllDBFind := (tryAllDBFind MakeURL).
Local Abbreviation fetchData := (fetchData MakeURL).

#[local] Set Warnings "-clear-no-such-hyp".

Lemma find_spec_facts get key url :
  ((find get key url).2 = None
   ↔ ∃ b, get (dbGetURL (MakeURL url) key) = GetResp StatusOK (Ok b) ∧ b ≠ [])
  ∧ (∀ b, get (dbGetURL (MakeURL url) key) = GetResp StatusOK (Ok b) → b ≠ [] →
          find get key url = (b, None))
  ∧ ((find get key url).2 = Some ErrDataNotFound
     ↔ ∃ Body, get (dbGetURL (MakeURL url) key) = GetResp StatusNotFound Body)
  ∧ (get (dbGetURL (MakeURL url) key) = GetResp StatusOK (Ok []) →
     find get key url = ([], Some (ErrLostData key)))
  ∧ ((find get key url).2 ≠ None → (find get key url).1 = [])
  ∧ ((find get key url).2 = None → (find get key url).1 ≠ []).
Proof.
  unfold node.find.
  destruct (get _) as [msg|code Body]; simpl; [split_and!; naive_solver|].
  case_bool_decide as Hnf; simpl; [subst code; split_and!; naive_solver|].
  case_bool_decide as Hok; simpl; [subst code|split_and!; naive_solver].
  destruct Body as [b|msg]; simpl; [|split_and!; naive_solver].
  case_bool_decide as Hlen; simpl.
  - apply length_zero_iff_nil in Hlen. subst b. split_and!; naive_solver.
  - assert (b ≠ []) as Hb by (intros ->; by apply Hlen).
    split_and!; naive_solver.
Qed.

(** X15. [find] returns bytes and no error exactly when the database
    answered 200 with a non-empty body, and then the bytes are that body;
    it returns [ErrDataNotFound] exactly on a 404; a 200 with an empty body
    is the lost-data error; and whenever it returns an error it returns no
    bytes. *)
Theorem find_spec get key url :
  ((find get key url).2 = None
   ↔ ∃ b, get (dbGetURL (MakeURL url) key) = GetResp StatusOK (Ok b) ∧ b ≠ [])
  ∧ (∀ b, get (dbGetURL (MakeURL url) key) = GetResp StatusOK (Ok b) → b ≠ [] →
          find get key url = (b, None))
  ∧ ((find get key url).2 = Some ErrDataNotFound
     ↔ ∃ Body, get (dbGetURL (MakeURL url) key) = GetResp StatusNotFound Body)
  ∧ (get (dbGetURL (MakeURL url) key) = GetResp StatusOK (Ok []) →
     find get key url = ([], Some (ErrLostData key)))
  ∧ ((find get key url).2 ≠ None → (find get key url).1 = [])
  ∧ ((find get key url).2 = None → (find get key url).1 ≠ []).
Proof. apply find_spec_facts. Qed.

Lemma run_latched key dbs l r :
  got r = true → foldl (complete key dbs) r l = r.
Proof.
  revert r. induction l as [|c l IH]; intros r Hg; [done|].
  simpl. rewrite complete_latched by done. by apply IH.
Qed.

(** X16. First responder wins.  When the goroutines that complete first
    all failed, and the next one comes back with bytes or with
    [ErrDataNotFound], that one is elected whatever completes after it;
    unless the timer fires first, [tryAllDBFind] returns its error, hands
    its bytes to the sink and starts [setFastDB] with its URL. *)
Theorem first_good_responder_wins key sc n l1 c l2 url val err :
  completed sc = l1 ++ c :: l2 →
  Forall (λ c', ∀ url', elems (dbs n) !! c_db c' = Some url' →
                  ∃ e, find (c_get c') key url' = ([], Some e)
                       ∧ e ≠ ErrDataNotFound) l1 →
  elems (dbs n) !! c_db c = Some url →
  find (c_get c) key url = (val, err) →
  (0 < length val)%nat ∨ err = Some ErrDataNotFound →
  run_race key (elems (dbs n)) (completed sc)
  = mkRace true (Some val) 0 url err (Some c)
  ∧ (timer_first sc = false →
     tryAllDBFind key sc n
     = mkOutcome err (Some val) [url]
         ((λ u, dbGetURL (MakeURL u) key) <$> elems (dbs n))
         (Some (mkWin key c url val err))).
Proof.
  intros Hsc Hfail Hurl Hfind Hgood.
  assert (run_race key (elems (dbs n)) (completed sc)
          = mkRace true (Some val) 0 url err (Some c)) as Hrun.
  { rewrite Hsc. unfold node.run_race. rewrite foldl_app.
    fold (run_race key (elems (dbs n)) l1).
    rewrite (race_all_failed MakeURL key (elems (dbs n)) l1 Hfail).
    simpl. rewrite run_latched; unfold node.complete; rewrite Hurl, Hfind.
    - destruct Hgood as [Hlen| ->].
      + by rewrite bool_decide_eq_true_2 by done.
      + rewrite (bool_decide_eq_true_2 (Some ErrDataNotFound = _)) by done.
        by rewrite orb_true_r.
    - destruct Hgood as [Hlen| ->].
      + by rewrite bool_decide_eq_true_2 by done.
      + rewrite (bool_decide_eq_true_2 (Some ErrDataNotFound = _)) by done.
        by rewrite orb_true_r. }
  split; [done|]. intros Htimer. unfold node.tryAllDBFind.
  apply lookup_lt_Some in Hurl.
  rewrite bool_decide_eq_false_2 by lia.
  rewrite Hrun, Htimer. simpl.
  destruct Hgood as [Hlen| ->].
  - by rewrite bool_decide_eq_true_2 by done.
  - rewrite (bool_decide_eq_true_2 (Some ErrDataNotFound = _)) by done.
    by rewrite orb_true_r.
Qed.

(** X17. When every goroutine that completes before the deadline failed
    with something else than a 404, no winner is elected, however many of
    them complete: [tryAllDBFind] waits for the timer, returns the timeout
    error and starts [setFastDB] with the empty string. *)
Theorem all_failed_times_out key sc n :
  elems (dbs n) ≠ [] →
  Forall (λ c, ∀ url, elems (dbs n) !! c_db c = Some url →
                 ∃ e, find (c_get c) key url = ([], Some e)
                      ∧ e ≠ ErrDataNotFound) (completed sc) →
  tryAllDBFind key sc n
  = mkOutcome (Some ErrDatabaseQueryTimeout) None [""]
      ((λ u, dbGetURL (MakeURL u) key) <$> elems (dbs n)) None.
Proof.
  intros Hdbs Hfail. unfold node.tryAllDBFind.
  rewrite bool_decide_eq_false_2 by (by destruct (elems (dbs n))).
  by rewrite (race_all_failed MakeURL key (elems (dbs n)) _ Hfail).
Qed.

(** X18. With [fastDB] set, a 200 with a non-empty body from it is the
    whole miss: the loader returns those bytes after that single request,
    starts no [setFastDB] and asks no other database, whatever the list of
    databases is. *)
Theorem fast_path_hit get key sc n b :
  fastDB n ≠ "" →
  get (dbGetURL (MakeURL (fastDB n)) key) = GetResp StatusOK (Ok b) →
  b ≠ [] →
  fetchData get key sc n
  = mkOutcome None (Some b) [] [dbGetURL (MakeURL (fastDB n)) key] None.
Proof.
  intros Hfast Hget Hb. unfold node.fetchData.
  rewrite bool_decide_eq_false_2 by done.
  destruct (find_spec_facts get key (fastDB n)) as (_ & Hhit & _).
  by rewrite (Hhit b Hget Hb).
Qed.

(** X19. A node that knows no database runs no race: [tryAllDBFind]
    returns the not-available error, asks nothing and starts nothing.  When
    [fastDB] was set and its lookup failed, the loader still starts the
    [setFastDB] that clears it before it returns that error. *)
Theorem no_databases get key sc n :
  elems (dbs n) = [] →
  tryAllDBFind key sc n = mkOutcome (Some ErrDatabasesNotAvailable) None [] [] None
  ∧ (fastDB n = "" → fetchData get key sc n = tryAllDBFind key sc n)
  ∧ (∀ e, fastDB n ≠ "" → (find get key (fastDB n)).2 = Some e →
          e ≠ ErrDataNotFound →
          fetchData get key sc n
          = mkOutcome (Some ErrDatabasesNotAvailable) None [""]
              [dbGetURL (MakeURL (fastDB n)) key] None).
Proof.
  intros Hdbs.
  assert (tryAllDBFind key sc n
          = mkOutcome (Some ErrDatabasesNotAvailable) None [] [] None) as Hrace.
  { unfold node.tryAllDBFind. by rewrite Hdbs. }
  split_and!; [done| |].
  - intros Hfast. unfold node.fetchData. by rewrite bool_decide_eq_true_2.
  - intros e Hfast Hfind Hne. unfold node.fetchData.
    rewrite bool_decide_eq_false_2 by done.
    destruct (find get key (fastDB n)) as [val err]. simpl in Hfind. subst err.
    rewrite Hrace. by destruct e.
Qed.

Lemma tryAllDBFind_shape key sc n :
  (ret (tryAllDBFind key sc n) = None →
   ∃ b, sink (tryAllDBFind key sc n) = Some b ∧ b ≠ [])
  ∧ (ret (tryAllDBFind key sc n) = Some ErrDataNotFound →
     sink (tryAllDBFind key sc n) = Some [])
  ∧ (∀ db, db ∈ spawned (tryAllDBFind key sc n) →
           db = "" ∨ db ∈ elems (dbs n)).
Proof.
  unfold node.tryAllDBFind.
  case_bool_decide as Hlen; simpl.
  { split_and!; [done|done|]. by intros db ?%elem_of_nil. }
  destruct (race_inv_run MakeURL key (elems (dbs n)) (completed sc)) as [_ Hinv].
  destruct (data _) as [value|] eqn:Hdata; simpl.
  2: { split_and!; [done|done|]. intros db ->%list_elem_of_singleton. by left. }
  destruct (timer_first sc); simpl.
  { split_and!; [done|done|]. intros db ->%list_elem_of_singleton. by left. }
  destruct (got _); [|congruence].
  destruct Hinv as (val & c & Hval & _ & Hurl & Hfind & Hgood).
  assert (val = value) as -> by congruence.
  destruct (find_spec_facts (c_get c) key
              (fastURL (run_race key (elems (dbs n)) (completed sc))))
    as (_ & _ & _ & _ & Herr & Hok).
  rewrite Hfind in Herr, Hok. simpl in Herr, Hok.
  split_and!.
  - intros Hret. exists value. split; [done|]. by apply Hok.
  - intros Hret. f_equal. apply Herr. by rewrite Hret.
  - intros db Hdb. right. destruct (_ || _).
    + apply list_elem_of_singleton in Hdb as ->.
      by eapply list_elem_of_lookup_2.
    + by apply elem_of_nil in Hdb.
Qed.

(** X20. What the loader returns is well formed: success always comes
    with a non-empty value, [ErrDataNotFound] never comes with bytes, and
    every [setFastDB] the loader starts is given the empty string or one
    of the databases of the node. *)
Theorem loader_result_shape get key sc n :
  (ret (fetchData get key sc n) = None →
   ∃ b, sink (fetchData get key sc n) = Some b ∧ b ≠ [])
  ∧ (ret (fetchData get key sc n) = Some ErrDataNotFound →
     sink (fetchData get key sc n) = None
     ∨ sink (fetchData get key sc n) = Some [])
  ∧ (∀ db, db ∈ spawned (fetchData get key sc n) →
           db = "" ∨ db ∈ elems (dbs n)).
Proof.
  destruct (tryAllDBFind_shape key sc n) as (Hok & Hnf & Hsp).
  unfold node.fetchData. case_bool_decide as Hfast.
  { split_and!; [done| |done]. intros Hret. right. by apply Hnf. }
  destruct (find_spec_facts get key (fastDB n)) as (_ & _ & _ & _ & _ & Hbytes).
  destruct (find get key (fastDB n)) as [val [e|]]; simpl in *.
  - destruct e; simpl;
      try (split_and!;
           [done
           |intros Hret; right; by apply Hnf
           |intros db [->|Hdb]%elem_of_cons; [by left|by apply Hsp]]).
    split_and!; [done|by left|]. by intros db ?%elem_of_nil.
  - split_and!; [|done|by intros db ?%elem_of_nil].
    intros _. exists val. split; [done|]. by apply Hbytes.
Qed.

(** X21. [handleMeta] answers a body that does not decode with 400 and
    leaves the node as it was, and answers every body that decodes with
    200; whatever the body, it never changes [fastDB] nor the addresses
    of the node. *)
Theorem handleMeta_frame bind n :
  (∀ msg, bind = Err msg →
          handleMeta bind n = (n, ctx_JSON StatusBadRequest (JSONError msg)))
  ∧ (∀ params, bind = Ok params →
               (handleMeta bind n).2 = ctx_JSON StatusOK JSONNil)
  ∧ fastDB (handleMeta bind n).1 = fastDB n
  ∧ masterAddr (handleMeta bind n).1 = masterAddr n
  ∧ httpAddr (handleMeta bind n).1 = httpAddr n
  ∧ nodeAddr (handleMeta bind n).1 = nodeAddr n.
Proof.
  unfold handleMeta. destruct bind as [params|msg]; simpl.
  - destruct (_ && _); simpl; split_and!; try done; by intros ? [= <-].
  - split_and!; try done. by intros ? [= <-].
Qed.

(** X22. [handleMeta] does not depend on the order in which the body
    lists the peers and the databases. *)
Theorem handleMeta_order_insensitive l l' d d' n :
  l ≡ₚ l' → d ≡ₚ d' →
  handleMeta (Ok (mkPeerParam (Some l) (Some d))) n
  = handleMeta (Ok (mkPeerParam (Some l') (Some d'))) n.
Proof.
  intros Hl Hd. unfold handleMeta. simpl.
  by rewrite (sort_strings_proper l l' Hl), (sort_strings_proper d d' Hd).
Qed.

(** X23. A heartbeat carries the sorted node addresses of the roster.  A
    node that handles it then holds exactly that list as its peers, and
    the sorted database list; when either differed from what the node
    held, the pool is given that list too. *)
Theorem heartbeat_installs_nodeAddrs (roster : gmap string string) d n :
  peers (handleMeta (Ok (mkPeerParam (Some (master.nodeAddrs roster)) d)) n).1
  = Some (master.nodeAddrs roster)
  ∧ dbs (handleMeta (Ok (mkPeerParam (Some (master.nodeAddrs roster)) d)) n).1
    = Sort d
  ∧ (¬ (peers n = Some (master.nodeAddrs roster) ∧ dbs n = Sort d) →
     pool (handleMeta (Ok (mkPeerParam (Some (master.nodeAddrs roster)) d)) n).1
     = master.nodeAddrs roster).
Proof.
  assert (Sort (Some (master.nodeAddrs roster)) = Some (master.nodeAddrs roster))
    as Hid.
  { simpl. f_equal. apply sort_strings_id, sort_strings_sorted. }
  destruct (decide (peers n = Some (master.nodeAddrs roster) ∧ dbs n = Sort d))
    as [[Hp Hd]|Hne].
  - rewrite handleMeta_same by (simpl Peers; simpl DBs; by rewrite ?Hid).
    simpl. split_and!; [done|done|]. intros Hne. by destruct Hne.
  - rewrite handleMeta_changed by (simpl Peers; simpl DBs; by rewrite ?Hid).
    simpl Peers. simpl DBs. rewrite Hid. simpl. by split_and!.
Qed.

(** X24. Started from a state with nothing pending, a miss whose lookup
    at [fastDB] failed and whose race was won leaves two [setFastDB] to
    run, one with the empty string and one with the winner.  Go does not
    order them: the node can end with [fastDB] set to the winner, and it
    can end with [fastDB] empty although the race was won. *)
Theorem latch_and_clear_race get key sc url s :
  pending s = [] →
  spawned (fetchData get key sc (nd s)) = [""; url] →
  ∃ s1 s2,
    reachable MakeURL s s1 ∧ reachable MakeURL s s2
    ∧ pending s1 = [] ∧ pending s2 = []
    ∧ fastDB (nd s1) = url ∧ fastDB (nd s2) = "".
Proof.
  intros Hpend Hsp.
  pose proof (step_fetch MakeURL get key sc s) as Hfetch. simpl in Hfetch.
  rewrite Hpend, Hsp in Hfetch. simpl in Hfetch.
  set (s' := mkSys (nd s) [""; url]
               (wins s ++ option_list (elected (fetchData get key sc (nd s))))) in *.
  exists (mkSys (setFastDB url (setFastDB "" (nd s))) [] (wins s')),
         (mkSys (setFastDB "" (setFastDB url (nd s))) [] (wins s')).
  split_and!; try done.
  - eapply reach_step; [eapply reach_step; [eapply reach_step; [apply reach_boot|]|]|].
    + exact Hfetch.
    + by apply (step_setFastDB MakeURL 0%nat "" s').
    + by apply (step_setFastDB MakeURL 0%nat url
                  (mkSys (setFastDB "" (nd s)) [url] (wins s'))).
  - eapply reach_step; [eapply reach_step; [eapply reach_step; [apply reach_boot|]|]|].
    + exact Hfetch.
    + by apply (step_setFastDB MakeURL 1%nat url s').
    + by apply (step_setFastDB MakeURL 0%nat ""
                  (mkSys (setFastDB url (nd s)) [""] (wins s'))).
Qed.

End node_more.

(** X25. [New] drops one trailing slash of the master address, and only
    one; an address that does not end in a slash is kept as it is. *)
Theorem New_trims_one_slash h na s :
  node.masterAddr (node.New h na (s +:+ "/")) = s
  ∧ node.masterAddr (node.New h na ((s +:+ "/") +:+ "/")) = s +:+ "/"
  ∧ ((∀ s', s ≠ s' +:+ "/") → node.masterAddr (node.New h na s) = s).
Proof.
  assert (∀ t, node.trim_slash (t +:+ "/") = t) as Htrim.
  { induction t as [|c t IH]; [done|].
    change (String c t +:+ "/") with (String c (t +:+ "/")).
    destruct t as [|c' t]; [done|].
    change (String c' t +:+ "/") with (String c' (t +:+ "/")) in *.
    simpl in *. by rewrite IH. }
  simpl. split_and!; [apply Htrim|apply Htrim|].
  induction s as [|c t IH]; [done|]. intros Hno.
  destruct t as [|c' t].
  - simpl. case_bool_decide as Hc; [|done]. subst c.
    by destruct (Hno "").
  - change (node.trim_slash (String c (String c' t)))
      with (String c (node.trim_slash (String c' t))).
    rewrite IH; [done|]. intros s' Hs'. apply (Hno (String c s')).
    by rewrite Hs'.
Qed.

Lemma New_trims_one_slash_witness :
  node.masterAddr (node.New "http://10.0.0.1:5551" "http://10.0.0.1:5552"
                     "10.0.0.9:5550") = "10.0.0.9:5550".
Proof.
  apply (New_trims_one_slash "http://10.0.0.1:5551" "http://10.0.0.1:5552"
           "10.0.0.9:5550").
  intros s' Hs'.
  do 13 (destruct s' as [|? s']; simpl in Hs';
         [discriminate Hs'|]; injection Hs' as _ Hs').
  destruct s'; discriminate Hs'.
Defined.

(** * The master and the node together *)
Section join_spec.
Context {M : Type} `{!master.Meta M}.
Variable MakeURL : string → string.
Variable json_Marshal_nodesMap : gmap string string → result master.error string.

(** X26. A node that installs the reply of a successful [JoinNode] holds
    as peers, and gives to its pool, the sorted http addresses of the
    roster, its own among them, and holds the database list of the master;
    its [fastDB] is untouched.  A failed call leaves the node as it was
    and fails the join. *)
Theorem join_installs_reply args (m m' : master.Master M) reply n msg :
  master.JoinNode MakeURL json_Marshal_nodesMap args m = (m', Ok reply) →
  node.peers (node.join (Ok reply) n).1
  = Some (master.httpAddrs (master.nodesMap m'))
  ∧ node.pool (node.join (Ok reply) n).1 = master.httpAddrs (master.nodesMap m')
  ∧ node.dbs (node.join (Ok reply) n).1 = master.dbs m
  ∧ node.fastDB (node.join (Ok reply) n).1 = node.fastDB n
  ∧ (node.join (Ok reply) n).2 = None
  ∧ (∃ a, args = Some a
          ∧ MakeURL (master.HTTPAddr a) ∈ node.pool (node.join (Ok reply) n).1)
  ∧ node.join (Err msg) n = (n, Some (node.ErrExternal msg)).
Proof.
  intros HJ.
  destruct (JoinNode_reply_facts _ _ _ _ _ _ HJ) as (a & -> & Hp & Hin & _ & _ & Hd).
  destruct (JoinNode_Ok_inv _ _ _ _ _ _ HJ) as (a' & [= <-] & _ & _ & Hup).
  destruct (updateNodesMap_frame _ _ _ _ _ Hup) as (Hnm & _ & _).
  simpl in Hnm. rewrite <- Hnm in Hp.
  simpl. rewrite Hp, Hd. split_and!; try done.
  exists a. split; [done|]. by rewrite Hp in Hin.
Qed.

End join_spec.

(** ** The further properties of the node on concrete databases *)

Lemma find_spec_witness :
  node.find standin.MakeURL (standin.serves "v1") "x" standin.db_a
  = (standin.bytes "v1", None).
Proof.
  apply (proj1 (proj2 (find_spec standin.MakeURL (standin.serves "v1") "x"
                         standin.db_a))).
  - reflexivity.
  - vm_compute. discriminate.
Defined.

Lemma first_good_responder_wins_witness :
  node.run_race standin.MakeURL "x" (elems (node.dbs (node.nd standin.member)))
    (node.completed standin.b_first)
  = node.mkRace true (Some (standin.bytes "v1")) 0 standin.db_b None
      (Some (node.mkCompletion 1 (standin.serves "v1"))).
Proof.
  apply (first_good_responder_wins standin.MakeURL "x" standin.b_first
           (node.nd standin.member) []
           (node.mkCompletion 1 (standin.serves "v1"))
           [node.mkCompletion 0 (standin.serves "v1")]).
  - reflexivity.
  - constructor.
  - vm_compute. reflexivity.
  - vm_compute. reflexivity.
  - left. vm_compute. lia.
Defined.

Lemma all_failed_times_out_witness :
  node.tryAllDBFind standin.MakeURL "x" standin.both_fail (node.nd standin.member)
  = node.mkOutcome (Some node.ErrDatabaseQueryTimeout) None [""]
      ((λ u, node.dbGetURL (standin.MakeURL u) "x")
         <$> elems (node.dbs (node.nd standin.member))) None.
Proof.
  apply (all_failed_times_out standin.MakeURL "x" standin.both_fail
           (node.nd standin.member)).
  - vm_compute. discriminate.
  - repeat constructor.
    + intros url _. exists node.ErrFailedToFetch. split; [reflexivity|discriminate].
    + intros url _. exists (node.ErrExternal "connection refused").
      split; [reflexivity|discriminate].
Defined.

Lemma fast_path_hit_witness :
  node.fetchData standin.MakeURL (standin.serves "v2") "y" standin.both_fail
    (node.nd standin.latched)
  = node.mkOutcome None (Some (standin.bytes "v2")) []
      [node.dbGetURL (standin.MakeURL (node.fastDB (node.nd standin.latched))) "y"]
      None.
Proof.
  apply (fast_path_hit standin.MakeURL (standin.serves "v2") "y" standin.both_fail
           (node.nd standin.latched) (standin.bytes "v2")).
  - vm_compute. discriminate.
  - reflexivity.
  - vm_compute. discriminate.
Defined.

Lemma no_databases_witness :
  node.tryAllDBFind standin.MakeURL "x" standin.b_first (node.nd standin.booted)
  = node.mkOutcome (Some node.ErrDatabasesNotAvailable) None [] [] None.
Proof.
  destruct (no_databases standin.MakeURL standin.unreachable "x" standin.b_first
              (node.nd standin.booted)) as (Hrace & _).
  - reflexivity.
  - exact Hrace.
Defined.

Lemma loader_result_shape_witness :
  ∃ b, node.sink (node.fetchData standin.MakeURL standin.unreachable "x"
                    standin.b_first (node.nd standin.member)) = Some b
       ∧ b ≠ [].
Proof.
  apply (loader_result_shape standin.MakeURL standin.unreachable "x"
           standin.b_first (node.nd standin.member)).
  vm_compute. reflexivity.
Defined.

Lemma handleMeta_frame_witness :
  node.handleMeta (Err "EOF") (node.nd standin.latched)
  = (node.nd standin.latched,
     node.ctx_JSON StatusBadRequest (node.JSONError "EOF")).
Proof.
  apply (handleMeta_frame (Err "EOF") (node.nd standin.latched)).
  reflexivity.
Defined.

Lemma handleMeta_order_insensitive_witness :
  node.handleMeta
    (Ok (mkPeerParam (Some ["http://10.0.0.2:5552"; "http://10.0.0.1:5552"])
                     (Some [standin.db_b; standin.db_a])))
    (node.nd standin.latched)
  = node.handleMeta
      (Ok (mkPeerParam (Some ["http://10.0.0.1:5552"; "http://10.0.0.2:5552"])
                       (Some [standin.db_a; standin.db_b])))
      (node.nd standin.latched).
Proof.
  apply handleMeta_order_insensitive; apply Permutation_swap.
Defined.

Lemma heartbeat_installs_nodeAddrs_witness :
  node.pool
    (node.handleMeta
       (Ok (mkPeerParam (Some (master.nodeAddrs (master.nodesMap standin.both)))
                        (Some [standin.db_a])))
       (node.nd standin.booted)).1
  = master.nodeAddrs (master.nodesMap standin.both).
Proof.
  apply (heartbeat_installs_nodeAddrs (master.nodesMap standin.both)
           (Some [standin.db_a]) (node.nd standin.booted)).
  intros [Hp _]. vm_compute in Hp. discriminate Hp.
Defined.

Lemma latch_and_clear_race_witness :
  ∃ s1 s2,
    node.reachable standin.MakeURL standin.latched s1
    ∧ node.reachable standin.MakeURL standin.latched s2
    ∧ node.pending s1 = [] ∧ node.pending s2 = []
    ∧ node.fastDB (node.nd s1) = standin.db_b
    ∧ node.fastDB (node.nd s2) = "".
Proof.
  apply (latch_and_clear_race standin.MakeURL standin.unreachable "y"
           standin.b_first standin.db_b standin.latched).
  - vm_compute. reflexivity.
  - vm_compute. reflexivity.
Defined.

Lemma join_installs_reply_witness :
  node.pool
    (node.join (Ok (mkPeerParam (Some ["http://10.0.0.1:5551"]) None))
       (node.nd standin.booted)).1
  = master.httpAddrs
      (master.nodesMap (standin.JoinNode (Some standin.n1) standin.fresh).1).
Proof.
  apply (join_installs_reply standin.MakeURL standin.Marshal_nodesMap
           (Some standin.n1) standin.fresh
           (standin.JoinNode (Some standin.n1) standin.fresh).1
           (mkPeerParam (Some ["http://10.0.0.1:5551"]) None)
           (node.nd standin.booted) "").
  vm_compute. reflexivity.
Defined.
